(** * The record store of [sqlite_backend.py]

    A shallow embedding of the seven functions of [sqlite_backend.py]
    ([init_db], [check_table_exists], [save_to_sqlite],
    [retrieve_from_sqlite], [delete_from_sqlite], [retrieve_all_data],
    [update_sqlite]) together with the part of [sqlite3] they call.

    Every function of the module has the same shape,
<<
      try:
          conn = sqlite3.connect(DB_PATH)
          ... one statement, maybe a commit ...
      except sqlite3.Error as e:
          print(...); return <default>
      finally:
          conn.close()
>>
    so the embedding is a state-and-exception monad in which a raised
    exception keeps the state reached so far, with one combinator for
    [try/except sqlite3.Error/finally].  The local variable [conn] is a slot
    of the running call's frame: it is unbound until the assignment
    [conn = sqlite3.connect(DB_PATH)] has completed. *)

From Stdlib Require Import String List ZArith Lia Bool Sorted.
From Stdlib Require Import Ascii DecimalString DecimalPos DecimalZ.
Import ListNotations.
Open Scope string_scope.
Open Scope Z_scope.

(** ** The backing file *)

(** One row of [analysis_data]: the tuple [(id, topic, parameters, content)]
    that [SELECT *] yields. *)
Record row := mkRow {
  id : Z;
  topic : string;
  parameters : string;
  content : string
}.

(** A column declaration of a [CREATE TABLE] statement. *)
Record column := mkColumn {
  col_name : string;
  col_type : string;
  col_not_null : bool;
  col_primary_key_autoincrement : bool
}.

(** An entry of [sqlite_master] with [type='table']. *)
Record table_def := mkTable {
  tbl_name : string;
  tbl_columns : list column
}.

(** The database file at [DB_PATH]: the catalogue, the rows of
    [analysis_data] in rowid order (the order of a table scan), and the
    [seq] value that [sqlite_sequence] keeps for [analysis_data]. *)
Record db := mkDb {
  sqlite_master : list table_def;
  analysis_data : list row;
  sqlite_sequence : Z
}.

(** The columns declared by [init_db]. *)
Definition analysis_data_columns : list column :=
  [ mkColumn "id" "INTEGER" false true;
    mkColumn "topic" "TEXT" true false;
    mkColumn "parameters" "TEXT" true false;
    mkColumn "content" "TEXT" true false ].

Definition analysis_data_def : table_def :=
  mkTable "analysis_data" analysis_data_columns.

(** The internal table the engine adds with the first AUTOINCREMENT table. *)
Definition sqlite_sequence_def : table_def :=
  mkTable "sqlite_sequence"
    [ mkColumn "name" "" false false; mkColumn "seq" "" false false ].

(** A database file that has just been created. *)
Definition empty_db : db := mkDb [] [] 0.

(** Largest rowid of the engine (a signed 64-bit integer). *)
Definition max_rowid : Z := 9223372036854775807.

Definition named (n : string) (t : table_def) : bool := String.eqb (tbl_name t) n.

Definition has_table (n : string) (d : db) : bool :=
  existsb (named n) (sqlite_master d).

(** [WHERE topic = ? AND parameters = ?] *)
Definition matches (t p : string) (r : row) : bool :=
  String.eqb (topic r) t && String.eqb (parameters r) p.

Definition no_such_table : string := "no such table: analysis_data".

(** ** The statements of the module, as functions on the database

    A statement either fails with the engine's message or yields its effect.
    Statements that write return the new database and the number of rows
    they changed ([cursor.rowcount]); queries return their result set. *)

(** [CREATE TABLE IF NOT EXISTS analysis_data (...)], on a file whose
    catalogue holds tables only, as every file this module has written does.
    A file in which a view or an index carries the name [analysis_data] is
    outside the model. *)
Definition create_table_if_not_exists (d : db) : string + db :=
  if has_table "analysis_data" d then inr d
  else inr (mkDb (sqlite_master d ++ analysis_data_def ::
                    (if has_table "sqlite_sequence" d then []
                     else [sqlite_sequence_def]))
                 [] 0).

(** [SELECT name FROM sqlite_master WHERE type='table' AND name='analysis_data'] *)
Definition select_table_name (d : db) : string + list string :=
  inr (map tbl_name (filter (named "analysis_data") (sqlite_master d))).

(** The rowid AUTOINCREMENT starts from: the largest rowid the table has
    ever held. *)
Definition largest_rowid (d : db) : Z :=
  fold_right Z.max (sqlite_sequence d) (map id (analysis_data d)).

(** [INSERT INTO analysis_data (topic, parameters, content) VALUES (?, ?, ?)] *)
Definition insert_row (t p c : string) (d : db) : string + db * Z :=
  if negb (has_table "analysis_data" d) then inl no_such_table
  else if max_rowid <=? largest_rowid d then inl "database or disk is full"
  else let i := largest_rowid d + 1 in
       inr (mkDb (sqlite_master d) (analysis_data d ++ [mkRow i t p c]) i, 1).

(** [SELECT content FROM analysis_data WHERE topic = ? AND parameters = ?] *)
Definition select_content (t p : string) (d : db) : string + list string :=
  if negb (has_table "analysis_data" d) then inl no_such_table
  else inr (map content (filter (matches t p) (analysis_data d))).

(** [DELETE FROM analysis_data WHERE topic = ? AND parameters = ?] *)
Definition delete_rows (t p : string) (d : db) : string + db * Z :=
  if negb (has_table "analysis_data" d) then inl no_such_table
  else inr (mkDb (sqlite_master d)
                 (filter (fun r => negb (matches t p r)) (analysis_data d))
                 (sqlite_sequence d),
            Z.of_nat (length (filter (matches t p) (analysis_data d)))).

(** [SELECT * FROM analysis_data] *)
Definition select_all (d : db) : string + list row :=
  if negb (has_table "analysis_data" d) then inl no_such_table
  else inr (analysis_data d).

(** [SET content = ?] on one row. *)
Definition set_content (c : string) (r : row) : row :=
  mkRow (id r) (topic r) (parameters r) c.

(** [UPDATE analysis_data SET content = ? WHERE topic = ? AND parameters = ?] *)
Definition update_rows (c t p : string) (d : db) : string + db * Z :=
  if negb (has_table "analysis_data" d) then inl no_such_table
  else inr (mkDb (sqlite_master d)
                 (map (fun r => if matches t p r then set_content c r else r)
                      (analysis_data d))
                 (sqlite_sequence d),
            Z.of_nat (length (filter (matches t p) (analysis_data d)))).

(** ** Exceptions, connections and the running call *)

(** The two exceptions that can arise in the module: the engine's
    [sqlite3.Error] (with its message), and the interpreter's
    [UnboundLocalError] for a local variable read before it was assigned. *)
Inductive exn :=
| sqlite3_Error (msg : string)
| UnboundLocalError (name : string).

Inductive outcome (A : Type) :=
| Return (a : A)
| Raise (e : exn).
Arguments Return {A} a.
Arguments Raise {A} e.

(** A connection object: the transaction it has open, if any, holds the
    database as the connection sees it until [commit]. *)
Record connection := mkConn { pending : option db }.

(** What a call can observe and change outside its own frame: the committed
    content of the file, the number of connections open, the lines printed. *)
Record world := mkWorld {
  disk : db;
  live : nat;
  stdout : list string
}.

(** The state of a running call: the world and the local variable [conn]
    ([None] while it is unbound). *)
Record state := mkState {
  the_world : world;
  conn : option connection
}.

(** The result set of the last [execute] and its [rowcount]. *)
Record cursor (A : Type) := mkCursor {
  result_set : list A;
  rowcount : Z
}.
Arguments mkCursor {A} _ _.
Arguments result_set {A} _.
Arguments rowcount {A} _.

(** What the engine does wrong during one call: for each kind of engine call,
    the message of the [sqlite3.Error] it raises, or [None] when it works. *)
Record faults := mkFaults {
  connect_error : option string;
  execute_error : option string;
  commit_error : option string;
  fetch_error : option string
}.

Definition no_faults : faults := mkFaults None None None None.

Definition M (A : Type) : Type := state -> outcome A * state.

Definition ret {A} (a : A) : M A := fun s => (Return a, s).

Definition bind {A B} (m : M A) (k : A -> M B) : M B :=
  fun s => match m s with
           | (Return a, s') => k a s'
           | (Raise e, s') => (Raise e, s')
           end.

Definition raise {A} (e : exn) : M A := fun s => (Raise e, s).

Declare Scope py_scope.
Delimit Scope py_scope with py.
Notation "x <- m ;; k" := (bind m (fun x => k))
  (at level 100, m at next level, right associativity) : py_scope.
Notation "m ;; k" := (bind m (fun _ => k))
  (at level 100, right associativity) : py_scope.
Open Scope py_scope.

(** [try: body  except sqlite3.Error as e: handler e  finally: fin].
    The handler runs only for [sqlite3.Error]; [fin] runs on every path, and
    an exception raised by [fin] replaces whatever result was pending, a
    [return] value included. *)
Definition try_except_finally {A} (body : M A) (handler : string -> M A)
    (fin : M unit) : M A :=
  fun s =>
    let (r, s1) := body s in
    let (r', s2) := match r with
                    | Raise (sqlite3_Error msg) => handler msg s1
                    | _ => (r, s1)
                    end in
    match fin s2 with
    | (Return _, s3) => (r', s3)
    | (Raise e, s3) => (Raise e, s3)
    end.

(** The world after one more line has been printed. *)
Definition log_line (line : string) (w : world) : world :=
  mkWorld (disk w) (live w) (stdout w ++ [line]).

(** [print(line)] *)
Definition print (line : string) : M unit :=
  fun s => (Return tt, mkState (log_line line (the_world s)) (conn s)).

(** Reading the local variable [conn]. *)
Definition load_conn : M connection :=
  fun s => match conn s with
           | Some c => (Return c, s)
           | None => (Raise (UnboundLocalError "conn"), s)
           end.

(** The database as the connection sees it. *)
Definition view (c : connection) (s : state) : db :=
  match pending c with
  | Some d => d
  | None => disk (the_world s)
  end.

Section Engine.

Variable env : faults.

(** [conn = sqlite3.connect(DB_PATH)]: the variable is bound only when
    [connect] has returned. *)
Definition connect_and_assign : M unit :=
  fun s => match connect_error env with
           | Some msg => (Raise (sqlite3_Error msg), s)
           | None =>
               let w := the_world s in
               (Return tt,
                mkState (mkWorld (disk w) (S (live w)) (stdout w))
                        (Some (mkConn None)))
           end.

(** [cursor = conn.cursor(); cursor.execute(stmt)] for INSERT, UPDATE and
    DELETE: the module opens a transaction before the statement, and the
    change stays in it until [commit]. *)
Definition execute_write (stmt : db -> string + db * Z) : M (cursor unit) :=
  c <- load_conn ;;
  fun s =>
    match execute_error env with
    | Some msg => (Raise (sqlite3_Error msg), s)
    | None =>
        match stmt (view c s) with
        | inl msg =>
            (Raise (sqlite3_Error msg),
             mkState (the_world s) (Some (mkConn (Some (view c s)))))
        | inr (d', n) =>
            (Return (mkCursor [] n),
             mkState (the_world s) (Some (mkConn (Some d'))))
        end
    end.

(** The same for [CREATE TABLE]: no transaction is opened for it, so outside
    a transaction it is written to the file at once. *)
Definition execute_ddl (stmt : db -> string + db) : M (cursor unit) :=
  c <- load_conn ;;
  fun s =>
    match execute_error env with
    | Some msg => (Raise (sqlite3_Error msg), s)
    | None =>
        match stmt (view c s) with
        | inl msg => (Raise (sqlite3_Error msg), s)
        | inr d' =>
            let w := the_world s in
            match pending c with
            | Some _ => (Return (mkCursor [] (-1)),
                         mkState w (Some (mkConn (Some d'))))
            | None => (Return (mkCursor [] (-1)),
                       mkState (mkWorld d' (live w) (stdout w)) (conn s))
            end
        end
    end.

(** The same for SELECT. *)
Definition execute_query {A} (stmt : db -> string + list A) : M (cursor A) :=
  c <- load_conn ;;
  fun s =>
    match execute_error env with
    | Some msg => (Raise (sqlite3_Error msg), s)
    | None =>
        match stmt (view c s) with
        | inl msg => (Raise (sqlite3_Error msg), s)
        | inr rows => (Return (mkCursor rows (-1)), s)
        end
    end.

(** [cursor.fetchone()]: the first row of the result set, or [None]. *)
Definition fetchone {A} (cur : cursor A) : M (option A) :=
  fun s => match fetch_error env with
           | Some msg => (Raise (sqlite3_Error msg), s)
           | None => (Return (hd_error (result_set cur)), s)
           end.

(** [cursor.fetchall()] *)
Definition fetchall {A} (cur : cursor A) : M (list A) :=
  fun s => match fetch_error env with
           | Some msg => (Raise (sqlite3_Error msg), s)
           | None => (Return (result_set cur), s)
           end.

(** [conn.commit()]: writes the open transaction to the file; does nothing
    when no transaction is open. *)
Definition commit : M unit :=
  c <- load_conn ;;
  fun s =>
    match pending c with
    | None => (Return tt, s)
    | Some d =>
        match commit_error env with
        | Some msg => (Raise (sqlite3_Error msg), s)
        | None =>
            let w := the_world s in
            (Return tt,
             mkState (mkWorld d (live w) (stdout w)) (Some (mkConn None)))
        end
    end.

(** [conn.close()]: releases the connection; a transaction still open is
    rolled back. *)
Definition close : M unit :=
  c <- load_conn ;;
  fun s =>
    let w := the_world s in
    (Return tt,
     mkState (mkWorld (disk w) (pred (live w)) (stdout w)) (Some (mkConn None))).

(** A call of a function of the module: it runs in a fresh frame, and only
    the world outlives it. *)
Definition call {A} (body : M A) (w : world) : outcome A * world :=
  let (r, s) := body (mkState w None) in (r, the_world s).

(** ** The functions of [sqlite_backend.py] *)

Definition init_db : world -> outcome unit * world :=
  call (try_except_finally
    (connect_and_assign ;;
     _ <- execute_ddl create_table_if_not_exists ;;
     commit ;;
     print "Database initialized and table 'analysis_data' is ready.")
    (fun e => print ("Error initializing database: " ++ e))
    close).

Definition check_table_exists : world -> outcome bool * world :=
  call (try_except_finally
    (connect_and_assign ;;
     cur <- execute_query select_table_name ;;
     result <- fetchone cur ;;
     match result with
     | Some _ => print "Table 'analysis_data' exists." ;; ret true
     | None => print "Table 'analysis_data' does not exist." ;; ret false
     end)
    (fun e => print ("Error checking table existence: " ++ e) ;; ret false)
    close).

Definition save_to_sqlite (topic parameters content : string)
  : world -> outcome unit * world :=
  call (try_except_finally
    (connect_and_assign ;;
     _ <- execute_write (insert_row topic parameters content) ;;
     commit ;;
     print "Content saved to SQLite database.")
    (fun e => print ("Error saving content to SQLite: " ++ e))
    close).

Definition not_found_message : string :=
  "No content found for the given topic and parameters.".

Definition retrieve_error_message : string :=
  "An error occurred while retrieving the content.".

Definition retrieve_from_sqlite (topic parameters : string)
  : world -> outcome string * world :=
  call (try_except_finally
    (connect_and_assign ;;
     cur <- execute_query (select_content topic parameters) ;;
     result <- fetchone cur ;;
     match result with
     | Some c => print "Content retrieved successfully." ;; ret c
     | None => print not_found_message ;; ret not_found_message
     end)
    (fun e => print ("Error retrieving content from SQLite: " ++ e) ;;
              ret retrieve_error_message)
    close).

Definition deleted_message : string := "Content deleted successfully.".

Definition nothing_to_delete_message : string :=
  "No content found to delete for the given topic and parameters.".

Definition delete_error_message : string :=
  "An error occurred while deleting the content.".

Definition delete_from_sqlite (topic parameters : string)
  : world -> outcome string * world :=
  call (try_except_finally
    (connect_and_assign ;;
     cur <- execute_write (delete_rows topic parameters) ;;
     commit ;;
     if 0 <? rowcount cur
     then print deleted_message ;; ret deleted_message
     else print nothing_to_delete_message ;; ret nothing_to_delete_message)
    (fun e => print ("Error deleting content from SQLite: " ++ e) ;;
              ret delete_error_message)
    close).

Definition retrieve_all_data : world -> outcome (list row) * world :=
  call (try_except_finally
    (connect_and_assign ;;
     cur <- execute_query select_all ;;
     records <- fetchall cur ;;
     print "All records retrieved successfully." ;;
     ret records)
    (fun e => print ("Error retrieving all records: " ++ e) ;; ret [])
    close).

Definition updated_message : string := "Content updated successfully.".

Definition nothing_to_update_message : string :=
  "No matching content found to update.".

Definition update_error_message : string :=
  "An error occurred while updating the content.".

Definition update_sqlite (topic parameters new_content : string)
  : world -> outcome string * world :=
  call (try_except_finally
    (connect_and_assign ;;
     cur <- execute_write (update_rows new_content topic parameters) ;;
     commit ;;
     if 0 <? rowcount cur
     then print updated_message ;; ret updated_message
     else print nothing_to_update_message ;; ret nothing_to_update_message)
    (fun e => print ("Error updating content in SQLite: " ++ e) ;;
              ret update_error_message)
    close).

End Engine.

(** ** Well-formed database files

    What the engine guarantees of a file that only this module writes: rows
    are stored in strictly increasing rowid order, table names are unique, a
    table named [analysis_data] is the one [init_db] declares, and there are
    no rows without the table. *)
Record wf_db (d : db) : Prop := mkWf {
  wf_sorted : StronglySorted Z.lt (map id (analysis_data d));
  wf_names : NoDup (map tbl_name (sqlite_master d));
  wf_schema : forall t, In t (sqlite_master d) ->
                        tbl_name t = "analysis_data" -> t = analysis_data_def;
  wf_rows : has_table "analysis_data" d = false -> analysis_data d = []
}.

(** The table [analysis_data] has been created. *)
Definition initialized (w : world) : Prop :=
  has_table "analysis_data" (disk w) = true.

(** [init_db] called [n] times in a row, the engine working. *)
Fixpoint init_db_times (n : nat) (w : world) : world :=
  match n with
  | O => w
  | S k => init_db_times k (snd (init_db no_faults w))
  end.

(** [save_to_sqlite] called on each [(topic, parameters, content)] in turn,
    the engine working. *)
Fixpoint save_all (records : list (string * string * string)) (w : world) : world :=
  match records with
  | [] => w
  | (t, p, c) :: rest => save_all rest (snd (save_to_sqlite no_faults t p c w))
  end.

(** How many records [retrieve_all_data] returns, the engine working. *)
Definition count_listed (w : world) : nat :=
  match fst (retrieve_all_data no_faults w) with
  | Return records => length records
  | Raise _ => O
  end.

(** The fields of a row that [save_to_sqlite] is given. *)
Definition payload (r : row) : string * string * string :=
  (topic r, parameters r, content r).

(** The fields of a row that [update_sqlite] does not name in its [SET]. *)
Definition identity (r : row) : Z * string * string :=
  (id r, topic r, parameters r).

(** The world a process starts in when no database file exists yet. *)
Definition fresh_world : world := mkWorld empty_db 0 [].

(** The worlds in which only this module has written the file: the file did
    not exist at first, and since then the seven functions have been called
    in any order, with any arguments, the engine doing anything. *)
Inductive written_by_module : world -> Prop :=
| written_fresh : written_by_module fresh_world
| written_init_db env w :
    written_by_module w -> written_by_module (snd (init_db env w))
| written_check_table_exists env w :
    written_by_module w -> written_by_module (snd (check_table_exists env w))
| written_save_to_sqlite env t p c w :
    written_by_module w -> written_by_module (snd (save_to_sqlite env t p c w))
| written_retrieve_from_sqlite env t p w :
    written_by_module w -> written_by_module (snd (retrieve_from_sqlite env t p w))
| written_delete_from_sqlite env t p w :
    written_by_module w -> written_by_module (snd (delete_from_sqlite env t p w))
| written_retrieve_all_data env w :
    written_by_module w -> written_by_module (snd (retrieve_all_data env w))
| written_update_sqlite env t p c w :
    written_by_module w -> written_by_module (snd (update_sqlite env t p c w)).

(** ** The callers in [stock_app.py]

    The script runs from top to bottom on every interaction.  The parts of it
    that call the store are embedded here: the start-up lines, the body of
    the "Save" button and the body of the "Retrieve Previous Analysis"
    button, as functions of the widget values and of what the page and the
    store are when the block is reached. *)

(** The options of the "Select Risk Tolerance" box. *)
Inductive risk := Low | Moderate | High.

Definition risk_text (r : risk) : string :=
  match r with
  | Low => "Low"
  | Moderate => "Moderate"
  | High => "High"
  end.

(** The options of the "Investment Horizon" box. *)
Inductive horizon := Short_term | Long_term.

(** The options of the "Select Data Period" box. *)
Inductive data_period := P1mo | P3mo | P6mo | P1y | P5y | P10y.

(** The values of the input widgets.  The two number inputs are given an
    integer [min_value] and no other bound or step, so they hold integers. *)
Record inputs := mkInputs {
  stock_symbol : string;
  initial_capital : Z;
  risk_tolerance : risk;
  trading_strategy : string;
  investment_horizon : horizon;
  portfolio_diversification : Z;
  period : data_period
}.

(** What an f-string makes of an integer: its decimal digits, with a minus
    sign in front of a negative one. *)
Definition str_int (n : Z) : string := NilZero.string_of_int (Z.to_int n).

(** The rupee sign U+20B9, as the three bytes of its UTF-8 encoding. *)
Definition rupee_sign : string :=
  String "226"%char (String "130"%char (String "185"%char "")).

(** [parameters = f"₹{initial_capital}-{risk_tolerance}-{trading_strategy}"],
    as both buttons build it. *)
Definition parameters_of (i : inputs) : string :=
  rupee_sign ++ str_int (initial_capital i) ++ "-" ++
  risk_text (risk_tolerance i) ++ "-" ++ trading_strategy i.

(** The truth value of a string in a condition: it is not empty. *)
Definition truthy (s : string) : bool := negb (String.eqb s "").

(** The strings with no ['-'] in them. *)
Fixpoint no_dash (s : string) : bool :=
  match s with
  | EmptyString => true
  | String c rest => negb (Ascii.eqb c "-"%char) && no_dash rest
  end.

(** What the script puts on the page. *)
Inductive element :=
| st_success (body : string)
| st_error (body : string)
| st_markdown (body : string).

(** The script at the point where a block starts: the store,
    [st.session_state.analysis_content], and the page so far. *)
Record session := mkSession {
  store : world;
  analysis_content : string;
  page : list element
}.

Definition show (e : element) (a : session) : session :=
  mkSession (store a) (analysis_content a) (page a ++ [e]).

Definition with_store (w : world) (a : session) : session :=
  mkSession w (analysis_content a) (page a).



Definition saved_text : string := "Analysis and advice saved successfully!".

Definition generate_first_text : string :=
  "Please generate the analysis and advice first before saving.".

(** Lines 185 to 191: the body of [if st.button("Save"):]. *)
Definition save_button (env : faults) (i : inputs) (a : session) : outcome unit * session :=
  if truthy (analysis_content a)
  then
    let parameters := parameters_of i in
    match save_to_sqlite env (stock_symbol i) parameters (analysis_content a) (store a) with
    | (Raise e, w') => (Raise e, with_store w' a)
    | (Return _, w') => (Return tt, show (st_success saved_text) (with_store w' a))
    end
  else (Return tt, show (st_error generate_first_text) a).

Definition nothing_previous_text : string :=
  "No previous analysis found for these parameters.".

Definition inputs_required_text : string :=
  "Please enter the required inputs to retrieve previous analysis.".

(** Lines 194 to 203: the body of [if st.button("Retrieve Previous Analysis"):]. *)
Definition retrieve_button (env : faults) (i : inputs) (a : session) : outcome unit * session :=
  if truthy (stock_symbol i) && (0 <? initial_capital i)
  then
    let parameters := parameters_of i in
    match retrieve_from_sqlite env (stock_symbol i) parameters (store a) with
    | (Raise e, w') => (Raise e, with_store w' a)
    | (Return previous_content, w') =>
        if truthy previous_content
        then (Return tt, show (st_markdown previous_content) (with_store w' a))
        else (Return tt, show (st_error nothing_previous_text) (with_store w' a))
    end
  else (Return tt, show (st_error inputs_required_text) a).

(** ** [fetch_realtime_news]

    The value that [response.json()] returns, as the objects the interpreter
    builds for it; a dict keeps its entries in a list with one entry per
    key. *)
#[warnings="-register-all"]
Inductive pyvalue :=
| PyNone
| PyBool (b : bool)
| PyInt (n : Z)
| PyFloat (literal : string)
| PyStr (s : string)
| PyList (items : list pyvalue)
| PyDict (entries : list (string * pyvalue)).

(** The answer of [requests.get]: [json = None] when [response.json()]
    raises. *)
Record response := mkResponse {
  status_code : Z;
  json : option pyvalue;
  text : string
}.

(** One entry of the list [fetch_realtime_news] returns. *)
Record news_article := mkArticle {
  title : pyvalue;
  description : pyvalue
}.

Fixpoint dict_get (key : string) (entries : list (string * pyvalue)) : option pyvalue :=
  match entries with
  | [] => None
  | (k, v) :: rest => if String.eqb k key then Some v else dict_get key rest
  end.

(** [v[key]] for a string key: [None] when it raises ([KeyError] on a dict
    without the key, [TypeError] on anything that is not a dict). *)
Definition getitem (v : pyvalue) (key : string) : option pyvalue :=
  match v with
  | PyDict entries => dict_get key entries
  | _ => None
  end.

(** The items that [for article in v[:5]] goes through: [None] when the slice
    raises.  A list gives its first five items, a string its first five
    characters, each as a string; nothing else can be sliced. *)
Definition first_five (v : pyvalue) : option (list pyvalue) :=
  match v with
  | PyList items => Some (firstn 5 items)
  | PyStr s =>
      Some (map (fun c => PyStr (String c "")) (firstn 5 (list_ascii_of_string s)))
  | _ => None
  end.

(** [{"title": article["title"], "description": article["description"]}] *)
Definition article_of (article : pyvalue) : option news_article :=
  match getitem article "title", getitem article "description" with
  | Some t, Some d => Some (mkArticle t d)
  | _, _ => None
  end.

(** The list comprehension: it raises as soon as one item does. *)
Fixpoint comprehension (items : list pyvalue) : option (list news_article) :=
  match items with
  | [] => Some []
  | article :: rest =>
      match article_of article with
      | None => None
      | Some a =>
          match comprehension rest with
          | None => None
          | Some l => Some (a :: l)
          end
      end
  end.

Section News.

(** [NEWSAPI_KEY = os.environ.get("NEWSAPI_KEY")], and the network. *)
Variable NEWSAPI_KEY : option string.
Variable requests_get : string -> option response.

Definition news_url (stock_symbol : string) : string :=
  "https://newsapi.ai/api/v1/news?apikey=" ++
  match NEWSAPI_KEY with Some k => k | None => "None" end ++
  "&q=" ++ stock_symbol ++ "&language=en".

(** The value [fetch_realtime_news] returns.  Whatever is raised inside the
    [try] is caught by [except Exception] and gives the empty list; the line
    printed then is left out of the model. *)
Definition fetch_realtime_news (stock_symbol : string) : list news_article :=
  match requests_get (news_url stock_symbol) with
  | None => []
  | Some response =>
      if status_code response =? 200
      then
        match json response with
        | None => []
        | Some news_data =>
            match getitem news_data "articles" with
            | None => []
            | Some articles =>
                match first_five articles with
                | None => []
                | Some items =>
                    match comprehension items with
                    | None => []
                    | Some news_articles => news_articles
                    end
                end
            end
        end
      else []
  end.

End News.

(** ** How each function runs once the connection is open *)

Ltac run :=
  cbv [init_db check_table_exists save_to_sqlite retrieve_from_sqlite
       delete_from_sqlite retrieve_all_data update_sqlite
       call try_except_finally bind ret raise print load_conn view
       connect_and_assign execute_write execute_ddl execute_query
       fetchone fetchall commit close
       connect_error execute_error commit_error fetch_error no_faults
       conn the_world pending result_set rowcount].

Lemma db_eta d : mkDb (sqlite_master d) (analysis_data d) (sqlite_sequence d) = d.
Proof. destruct d; reflexivity. Qed.

Lemma init_db_run ee me fe w :
  init_db (mkFaults None ee me fe) w =
  match ee with
  | Some msg => (Return tt, log_line ("Error initializing database: " ++ msg) w)
  | None =>
      match create_table_if_not_exists (disk w) with
      | inl msg => (Return tt, log_line ("Error initializing database: " ++ msg) w)
      | inr d' =>
          (Return tt,
           log_line "Database initialized and table 'analysis_data' is ready."
                    (mkWorld d' (live w) (stdout w)))
      end
  end.
Proof.
  run. destruct ee as [msg|]; cbn.
  - unfold log_line; cbn. reflexivity.
  - destruct (create_table_if_not_exists (disk w)) as [msg|d']; reflexivity.
Qed.

Lemma save_to_sqlite_run ee me fe t p c w :
  save_to_sqlite (mkFaults None ee me fe) t p c w =
  let failed msg := (Return tt, log_line ("Error saving content to SQLite: " ++ msg) w) in
  match ee with
  | Some msg => failed msg
  | None =>
      match insert_row t p c (disk w) with
      | inl msg => failed msg
      | inr (d', _) =>
          match me with
          | Some msg => failed msg
          | None => (Return tt,
                     log_line "Content saved to SQLite database."
                              (mkWorld d' (live w) (stdout w)))
          end
      end
  end.
Proof.
  run. destruct ee as [msg|]; cbn; [reflexivity|].
  destruct (insert_row t p c (disk w)) as [msg|[d' n]]; cbn; [reflexivity|].
  destruct me as [msg|]; reflexivity.
Qed.

Lemma retrieve_from_sqlite_run ee me fe t p w :
  retrieve_from_sqlite (mkFaults None ee me fe) t p w =
  let failed msg :=
    (Return retrieve_error_message,
     log_line ("Error retrieving content from SQLite: " ++ msg) w) in
  match ee with
  | Some msg => failed msg
  | None =>
      match select_content t p (disk w) with
      | inl msg => failed msg
      | inr found =>
          match fe with
          | Some msg => failed msg
          | None =>
              match found with
              | c :: _ => (Return c, log_line "Content retrieved successfully." w)
              | [] => (Return not_found_message, log_line not_found_message w)
              end
          end
      end
  end.
Proof.
  run. destruct ee as [msg|]; cbn; [reflexivity|].
  destruct (select_content t p (disk w)) as [msg|found]; cbn; [reflexivity|].
  destruct fe as [msg|]; cbn; [reflexivity|].
  destruct found; reflexivity.
Qed.

Lemma delete_from_sqlite_run ee me fe t p w :
  delete_from_sqlite (mkFaults None ee me fe) t p w =
  let failed msg :=
    (Return delete_error_message,
     log_line ("Error deleting content from SQLite: " ++ msg) w) in
  match ee with
  | Some msg => failed msg
  | None =>
      match delete_rows t p (disk w) with
      | inl msg => failed msg
      | inr (d', n) =>
          match me with
          | Some msg => failed msg
          | None =>
              let w' := mkWorld d' (live w) (stdout w) in
              if 0 <? n
              then (Return deleted_message, log_line deleted_message w')
              else (Return nothing_to_delete_message,
                    log_line nothing_to_delete_message w')
          end
      end
  end.
Proof.
  run. destruct ee as [msg|]; cbn; [reflexivity|].
  destruct (delete_rows t p (disk w)) as [msg|[d' n]]; cbn; [reflexivity|].
  destruct me as [msg|]; cbn; [reflexivity|].
  destruct (0 <? n); reflexivity.
Qed.

Lemma update_sqlite_run ee me fe t p c w :
  update_sqlite (mkFaults None ee me fe) t p c w =
  let failed msg :=
    (Return update_error_message,
     log_line ("Error updating content in SQLite: " ++ msg) w) in
  match ee with
  | Some msg => failed msg
  | None =>
      match update_rows c t p (disk w) with
      | inl msg => failed msg
      | inr (d', n) =>
          match me with
          | Some msg => failed msg
          | None =>
              let w' := mkWorld d' (live w) (stdout w) in
              if 0 <? n
              then (Return updated_message, log_line updated_message w')
              else (Return nothing_to_update_message,
                    log_line nothing_to_update_message w')
          end
      end
  end.
Proof.
  run. destruct ee as [msg|]; cbn; [reflexivity|].
  destruct (update_rows c t p (disk w)) as [msg|[d' n]]; cbn; [reflexivity|].
  destruct me as [msg|]; cbn; [reflexivity|].
  destruct (0 <? n); reflexivity.
Qed.

Lemma retrieve_all_data_run ee me fe w :
  retrieve_all_data (mkFaults None ee me fe) w =
  let failed msg := (Return [], log_line ("Error retrieving all records: " ++ msg) w) in
  match ee with
  | Some msg => failed msg
  | None =>
      match select_all (disk w) with
      | inl msg => failed msg
      | inr records =>
          match fe with
          | Some msg => failed msg
          | None => (Return records, log_line "All records retrieved successfully." w)
          end
      end
  end.
Proof.
  run. destruct ee as [msg|]; cbn; [reflexivity|].
  destruct (select_all (disk w)) as [msg|records]; cbn; [reflexivity|].
  destruct fe as [msg|]; reflexivity.
Qed.

Lemma check_table_exists_run ee me fe w :
  check_table_exists (mkFaults None ee me fe) w =
  let failed msg :=
    (Return false, log_line ("Error checking table existence: " ++ msg) w) in
  match ee with
  | Some msg => failed msg
  | None =>
      match fe with
      | Some msg => failed msg
      | None =>
          if has_table "analysis_data" (disk w)
          then (Return true, log_line "Table 'analysis_data' exists." w)
          else (Return false, log_line "Table 'analysis_data' does not exist." w)
      end
  end.
Proof.
  run. destruct ee as [msg|]; cbn; [reflexivity|].
  destruct fe as [msg|]; cbn; [reflexivity|].
  unfold has_table.
  induction (sqlite_master (disk w)) as [|t l IH]; cbn; [reflexivity|].
  destruct (named "analysis_data" t); cbn; [reflexivity|exact IH].
Qed.

(** ** Facts about rows and keys *)

Lemma filter_none {A} (f : A -> bool) (l : list A) :
  (forall x, In x l -> f x = false) -> filter f l = [].
Proof.
  induction l as [|a l IH]; cbn; intros H; [reflexivity|].
  rewrite (H a (or_introl eq_refl)). apply IH. intros x Hx. apply H. now right.
Qed.

Lemma filter_some {A} (f : A -> bool) (l : list A) x :
  In x l -> f x = true -> filter f l <> [].
Proof.
  intros Hin Hf Hnil.
  assert (Hx : In x (filter f l)) by (apply filter_In; now split).
  rewrite Hnil in Hx. exact Hx.
Qed.

Lemma filter_app_one {A} (f : A -> bool) (l : list A) a :
  filter f (l ++ [a]) = (filter f l ++ (if f a then [a] else []))%list.
Proof. rewrite filter_app. reflexivity. Qed.

Lemma matches_refl i t p c : matches t p (mkRow i t p c) = true.
Proof. unfold matches; cbn. now rewrite !String.eqb_refl. Qed.

Lemma matches_set_content t p c r : matches t p (set_content c r) = matches t p r.
Proof. reflexivity. Qed.

(** In rowid order the first row with a property is the one with the least id. *)
Lemma first_match_least (f : row -> bool) (l : list row) r rest :
  StronglySorted Z.lt (map id l) ->
  filter f l = r :: rest ->
  forall r', In r' l -> f r' = true -> id r <= id r'.
Proof.
  induction l as [|a l IH]; cbn; intros Hs Hf r' Hin Hr'; [contradiction|].
  inversion Hs as [|x xs Hs' Hall]; subst.
  destruct (f a) eqn:Ha.
  - injection Hf as -> _. destruct Hin as [->|Hin]; [lia|].
    rewrite Forall_forall in Hall.
    specialize (Hall (id r') (in_map id _ _ Hin)). lia.
  - destruct Hin as [->|Hin]; [congruence|]. now apply (IH Hs' Hf).
Qed.

Lemma largest_rowid_seq d : sqlite_sequence d <= largest_rowid d.
Proof.
  unfold largest_rowid. induction (analysis_data d) as [|a l IH]; cbn; lia.
Qed.

Lemma largest_rowid_bound d r : In r (analysis_data d) -> id r <= largest_rowid d.
Proof.
  unfold largest_rowid. induction (analysis_data d) as [|a l IH]; cbn;
    [contradiction|].
  intros [->|Hin]; [lia|]. specialize (IH Hin). lia.
Qed.

Lemma sorted_snoc (l : list row) (r : row) :
  StronglySorted Z.lt (map id l) ->
  (forall x, In x l -> id x < id r) ->
  StronglySorted Z.lt (map id (l ++ [r])).
Proof.
  induction l as [|a l IH]; cbn; intros Hs Hlt.
  - constructor; constructor.
  - inversion Hs as [|x xs Hs' Hall]; subst. constructor.
    + apply IH; [exact Hs'|]. intros x Hx. apply Hlt. now right.
    + rewrite map_app, Forall_app. split; [exact Hall|].
      constructor; [|constructor]. apply Hlt. now left.
Qed.

Lemma sorted_filter (f : row -> bool) (l : list row) :
  StronglySorted Z.lt (map id l) -> StronglySorted Z.lt (map id (filter f l)).
Proof.
  induction l as [|a l IH]; cbn; intros Hs; [constructor|].
  inversion Hs as [|x xs Hs' Hall]; subst.
  destruct (f a); cbn; [|now apply IH].
  constructor; [now apply IH|].
  rewrite Forall_forall in *. intros y Hy. apply Hall.
  rewrite in_map_iff in *. destruct Hy as [z [<- Hz]].
  exists z. split; [reflexivity|]. apply filter_In in Hz. tauto.
Qed.

Lemma update_keeps_identity c t p (l : list row) :
  map identity (map (fun r => if matches t p r then set_content c r else r) l)
  = map identity l.
Proof.
  rewrite map_map. apply map_ext. intros r. now destruct (matches t p r).
Qed.

Lemma update_keeps_ids c t p (l : list row) :
  map id (map (fun r => if matches t p r then set_content c r else r) l)
  = map id l.
Proof.
  rewrite map_map. apply map_ext. intros r. now destruct (matches t p r).
Qed.

Lemma update_none c t p (l : list row) :
  (forall x, In x l -> matches t p x = false) ->
  map (fun r => if matches t p r then set_content c r else r) l = l.
Proof.
  induction l as [|a l IH]; cbn; intros H; [reflexivity|].
  rewrite (H a (or_introl eq_refl)). f_equal. apply IH.
  intros x Hx. apply H. now right.
Qed.

Lemma count_zero {A} (f : A -> bool) (l : list A) :
  (forall x, In x l -> f x = false) ->
  (0 <? Z.of_nat (length (filter f l))) = false.
Proof. intros H. now rewrite (filter_none f l H). Qed.

Lemma count_nonzero {A} (f : A -> bool) (l : list A) x :
  In x l -> f x = true -> (0 <? Z.of_nat (length (filter f l))) = true.
Proof.
  intros Hin Hf. pose proof (filter_some f l x Hin Hf) as Hne.
  destruct (filter f l); [congruence|]. apply Z.ltb_lt. cbn [length]. lia.
Qed.

Lemma has_table_named n (l : list table_def) :
  existsb (named n) l = true <-> In n (map tbl_name l).
Proof.
  rewrite existsb_exists, in_map_iff. unfold named.
  split; intros [t [H1 H2]]; exists t.
  - apply String.eqb_eq in H2. tauto.
  - split; [tauto|]. apply String.eqb_eq. tauto.
Qed.

(** ** Opening the connection fails *)

Lemma init_db_connect_failure msg ee me fe w :
  init_db (mkFaults (Some msg) ee me fe) w =
  (Raise (UnboundLocalError "conn"),
   log_line ("Error initializing database: " ++ msg) w).
Proof. reflexivity. Qed.

Lemma check_table_exists_connect_failure msg ee me fe w :
  check_table_exists (mkFaults (Some msg) ee me fe) w =
  (Raise (UnboundLocalError "conn"),
   log_line ("Error checking table existence: " ++ msg) w).
Proof. reflexivity. Qed.

Lemma save_to_sqlite_connect_failure msg ee me fe t p c w :
  save_to_sqlite (mkFaults (Some msg) ee me fe) t p c w =
  (Raise (UnboundLocalError "conn"),
   log_line ("Error saving content to SQLite: " ++ msg) w).
Proof. reflexivity. Qed.

Lemma retrieve_from_sqlite_connect_failure msg ee me fe t p w :
  retrieve_from_sqlite (mkFaults (Some msg) ee me fe) t p w =
  (Raise (UnboundLocalError "conn"),
   log_line ("Error retrieving content from SQLite: " ++ msg) w).
Proof. reflexivity. Qed.

Lemma delete_from_sqlite_connect_failure msg ee me fe t p w :
  delete_from_sqlite (mkFaults (Some msg) ee me fe) t p w =
  (Raise (UnboundLocalError "conn"),
   log_line ("Error deleting content from SQLite: " ++ msg) w).
Proof. reflexivity. Qed.

Lemma retrieve_all_data_connect_failure msg ee me fe w :
  retrieve_all_data (mkFaults (Some msg) ee me fe) w =
  (Raise (UnboundLocalError "conn"),
   log_line ("Error retrieving all records: " ++ msg) w).
Proof. reflexivity. Qed.

Lemma update_sqlite_connect_failure msg ee me fe t p c w :
  update_sqlite (mkFaults (Some msg) ee me fe) t p c w =
  (Raise (UnboundLocalError "conn"),
   log_line ("Error updating content in SQLite: " ++ msg) w).
Proof. reflexivity. Qed.

(** ** The statements keep the file well formed *)

Lemma wf_empty_db : wf_db empty_db.
Proof.
  split; cbn.
  - constructor.
  - constructor.
  - intros t [].
  - reflexivity.
Qed.

Lemma create_table_wf d d' :
  create_table_if_not_exists d = inr d' -> wf_db d -> wf_db d'.
Proof.
  unfold create_table_if_not_exists. intros H Hwf.
  destruct (has_table "analysis_data" d) eqn:Ht.
  - now injection H as <-.
  - injection H as <-. destruct Hwf as [Hs Hn Hc Hr].
    assert (Hnot : ~ In "analysis_data" (map tbl_name (sqlite_master d))).
    { intros Hin. apply has_table_named in Hin. unfold has_table in Ht. congruence. }
    split; cbn.
    + constructor.
    + rewrite map_app. apply NoDup_app; [assumption| |].
      * destruct (has_table "sqlite_sequence" d); cbn.
        -- constructor; [intros []|constructor].
        -- constructor; [intros [Heq|[]]; discriminate|].
           constructor; [intros []|constructor].
      * intros n Hin Hin'. cbn in Hin'. destruct Hin' as [<-|Hin']; [tauto|].
        destruct (has_table "sqlite_sequence" d) eqn:Hq; cbn in Hin'; [tauto|].
        destruct Hin' as [<-|[]].
        apply has_table_named in Hin. unfold has_table in Hq. congruence.
    + intros t Hin Hname. rewrite in_app_iff in Hin. destruct Hin as [Hin|[<-|Hin]].
      * exfalso. apply Hnot. rewrite <- Hname. now apply in_map.
      * reflexivity.
      * destruct (has_table "sqlite_sequence" d); [contradiction|].
        destruct Hin as [<-|[]]. discriminate.
    + reflexivity.
Qed.

Lemma insert_row_wf t p c d d' n :
  insert_row t p c d = inr (d', n) -> wf_db d -> wf_db d'.
Proof.
  unfold insert_row. intros H [Hs Hn Hc Hr].
  destruct (has_table "analysis_data" d) eqn:Ht; cbn in H; [|discriminate].
  destruct (max_rowid <=? largest_rowid d); [discriminate|].
  injection H as <- _. split; cbn; try assumption.
  - apply sorted_snoc; [assumption|]. cbn. intros x Hx.
    pose proof (largest_rowid_bound d x Hx). lia.
  - unfold has_table in *. cbn. congruence.
Qed.

Lemma delete_rows_wf t p d d' n :
  delete_rows t p d = inr (d', n) -> wf_db d -> wf_db d'.
Proof.
  unfold delete_rows. intros H [Hs Hn Hc Hr].
  destruct (has_table "analysis_data" d) eqn:Ht; cbn in H; [|discriminate].
  injection H as <- _. split; cbn; try assumption.
  - now apply sorted_filter.
  - unfold has_table in *. cbn. congruence.
Qed.

Lemma update_rows_wf c t p d d' n :
  update_rows c t p d = inr (d', n) -> wf_db d -> wf_db d'.
Proof.
  unfold update_rows. intros H [Hs Hn Hc Hr].
  destruct (has_table "analysis_data" d) eqn:Ht; cbn in H; [|discriminate].
  injection H as <- _. split; cbn; try assumption.
  - now rewrite update_keeps_ids.
  - unfold has_table in *. cbn. congruence.
Qed.

Lemma sorted_NoDup (l : list Z) : StronglySorted Z.lt l -> NoDup l.
Proof.
  induction 1 as [|a l Hs IH Hall]; constructor; [|exact IH].
  intros Hin. rewrite Forall_forall in Hall. specialize (Hall a Hin). lia.
Qed.

Lemma largest_rowid_le d m :
  sqlite_sequence d <= m -> (forall r, In r (analysis_data d) -> id r <= m) ->
  largest_rowid d <= m.
Proof.
  unfold largest_rowid. intros Hseq.
  induction (analysis_data d) as [|a l IH]; cbn; intros H; [exact Hseq|].
  pose proof (H a (or_introl eq_refl)).
  assert (fold_right Z.max (sqlite_sequence d) (map id l) <= m).
  { apply IH. intros r Hr. apply H. now right. }
  lia.
Qed.

Lemma filter_split_length {A} (f : A -> bool) (l : list A) :
  (length l = length (filter (fun x => negb (f x)) l) + length (filter f l))%nat.
Proof.
  induction l as [|a l IH]; cbn; [reflexivity|].
  destruct (f a); cbn; lia.
Qed.

(** ** The functions keep the file well formed, whatever the engine does *)

Lemma init_db_wf env w : wf_db (disk w) -> wf_db (disk (snd (init_db env w))).
Proof.
  intros Hwf. destruct env as [[msg|] ee me fe]; [exact Hwf|].
  rewrite init_db_run. destruct ee as [msg|]; [exact Hwf|].
  destruct (create_table_if_not_exists (disk w)) as [msg|d'] eqn:Hc; [exact Hwf|].
  exact (create_table_wf _ _ Hc Hwf).
Qed.

Lemma save_to_sqlite_wf env t p c w :
  wf_db (disk w) -> wf_db (disk (snd (save_to_sqlite env t p c w))).
Proof.
  intros Hwf. destruct env as [[msg|] ee me fe]; [exact Hwf|].
  rewrite save_to_sqlite_run. destruct ee as [msg|]; [exact Hwf|].
  destruct (insert_row t p c (disk w)) as [msg|[d' n]] eqn:Hi; [exact Hwf|].
  destruct me as [msg|]; [exact Hwf|].
  exact (insert_row_wf _ _ _ _ _ _ Hi Hwf).
Qed.

Lemma delete_from_sqlite_wf env t p w :
  wf_db (disk w) -> wf_db (disk (snd (delete_from_sqlite env t p w))).
Proof.
  intros Hwf. destruct env as [[msg|] ee me fe]; [exact Hwf|].
  rewrite delete_from_sqlite_run. destruct ee as [msg|]; [exact Hwf|].
  destruct (delete_rows t p (disk w)) as [msg|[d' n]] eqn:Hd; [exact Hwf|].
  destruct me as [msg|]; [exact Hwf|].
  cbn. destruct (0 <? n); exact (delete_rows_wf _ _ _ _ _ Hd Hwf).
Qed.

Lemma update_sqlite_wf env t p c w :
  wf_db (disk w) -> wf_db (disk (snd (update_sqlite env t p c w))).
Proof.
  intros Hwf. destruct env as [[msg|] ee me fe]; [exact Hwf|].
  rewrite update_sqlite_run. destruct ee as [msg|]; [exact Hwf|].
  destruct (update_rows c t p (disk w)) as [msg|[d' n]] eqn:Hu; [exact Hwf|].
  destruct me as [msg|]; [exact Hwf|].
  cbn. destruct (0 <? n); exact (update_rows_wf _ _ _ _ _ _ Hu Hwf).
Qed.

(** ** The functions on an initialised store, the engine working *)

Lemma save_to_sqlite_ok t p c w :
  initialized w -> largest_rowid (disk w) < max_rowid ->
  save_to_sqlite no_faults t p c w =
  (Return tt,
   log_line "Content saved to SQLite database."
     (mkWorld (mkDb (sqlite_master (disk w))
                    (analysis_data (disk w) ++
                       [mkRow (largest_rowid (disk w) + 1) t p c])
                    (largest_rowid (disk w) + 1))
              (live w) (stdout w))).
Proof.
  intros Hi Hroom. unfold no_faults. rewrite save_to_sqlite_run.
  unfold insert_row. rewrite Hi. cbn [negb].
  destruct (max_rowid <=? largest_rowid (disk w)) eqn:Hfull; [|reflexivity].
  apply Z.leb_le in Hfull. lia.
Qed.

Lemma retrieve_from_sqlite_ok t p w :
  initialized w ->
  fst (retrieve_from_sqlite no_faults t p w) =
  Return (hd not_found_message
            (map content (filter (matches t p) (analysis_data (disk w))))).
Proof.
  intros Hi. unfold no_faults. rewrite retrieve_from_sqlite_run.
  unfold select_content. rewrite Hi. cbn [negb].
  now destruct (map content (filter (matches t p) (analysis_data (disk w)))).
Qed.

Lemma delete_from_sqlite_ok t p w :
  initialized w ->
  delete_from_sqlite no_faults t p w =
  let w' := mkWorld (mkDb (sqlite_master (disk w))
                          (filter (fun r => negb (matches t p r)) (analysis_data (disk w)))
                          (sqlite_sequence (disk w)))
                    (live w) (stdout w) in
  if 0 <? Z.of_nat (length (filter (matches t p) (analysis_data (disk w))))
  then (Return deleted_message, log_line deleted_message w')
  else (Return nothing_to_delete_message, log_line nothing_to_delete_message w').
Proof.
  intros Hi. unfold no_faults. rewrite delete_from_sqlite_run.
  unfold delete_rows. rewrite Hi. reflexivity.
Qed.

Lemma update_sqlite_ok t p c w :
  initialized w ->
  update_sqlite no_faults t p c w =
  let w' := mkWorld (mkDb (sqlite_master (disk w))
                          (map (fun r => if matches t p r then set_content c r else r)
                               (analysis_data (disk w)))
                          (sqlite_sequence (disk w)))
                    (live w) (stdout w) in
  if 0 <? Z.of_nat (length (filter (matches t p) (analysis_data (disk w))))
  then (Return updated_message, log_line updated_message w')
  else (Return nothing_to_update_message, log_line nothing_to_update_message w').
Proof.
  intros Hi. unfold no_faults. rewrite update_sqlite_run.
  unfold update_rows. rewrite Hi. reflexivity.
Qed.

Lemma retrieve_all_data_ok w :
  initialized w ->
  retrieve_all_data no_faults w =
  (Return (analysis_data (disk w)), log_line "All records retrieved successfully." w).
Proof.
  intros Hi. unfold no_faults. rewrite retrieve_all_data_run.
  unfold select_all. rewrite Hi. reflexivity.
Qed.

Lemma init_db_ok w :
  init_db no_faults w =
  (Return tt,
   log_line "Database initialized and table 'analysis_data' is ready."
     (mkWorld (if has_table "analysis_data" (disk w) then disk w
               else mkDb (sqlite_master (disk w) ++ analysis_data_def ::
                            (if has_table "sqlite_sequence" (disk w) then []
                             else [sqlite_sequence_def]))
                         [] 0)
              (live w) (stdout w))).
Proof.
  unfold no_faults. rewrite init_db_run. unfold create_table_if_not_exists.
  now destruct (has_table "analysis_data" (disk w)).
Qed.

Lemma initialized_after_init w : initialized (snd (init_db no_faults w)).
Proof.
  rewrite init_db_ok. unfold initialized. cbn.
  destruct (has_table "analysis_data" (disk w)) eqn:Ht; [exact Ht|].
  unfold has_table. cbn. rewrite existsb_app. cbn. apply orb_true_r.
Qed.

Lemma wf_after_init : wf_db (disk (init_db_times 1 fresh_world)).
Proof. apply init_db_wf, wf_empty_db. Qed.

(** ** save, then retrieve *)

(** C1. On an initialised store with room for one more rowid,
    [save_to_sqlite topic parameters content] followed by
    [retrieve_from_sqlite topic parameters] returns [content] when no row
    already in the store has the key; in every case it returns the content
    of the first-inserted row with the key, the one of least [id] among the
    rows with that key. *)
Theorem C1_save_then_retrieve t p c w :
  initialized w -> wf_db (disk w) -> largest_rowid (disk w) < max_rowid ->
  let w' := snd (save_to_sqlite no_faults t p c w) in
  let got := fst (retrieve_from_sqlite no_faults t p w') in
  ((forall r, In r (analysis_data (disk w)) -> matches t p r = false) ->
   got = Return c)
  /\ exists r, In r (analysis_data (disk w'))
       /\ matches t p r = true
       /\ (forall r', In r' (analysis_data (disk w')) -> matches t p r' = true ->
                      id r <= id r')
       /\ got = Return (content r).
Proof.
  intros Hi Hwf Hroom w' got.
  assert (Hwf' : wf_db (disk w')) by now apply save_to_sqlite_wf.
  assert (Hi' : initialized w').
  { unfold w'. rewrite save_to_sqlite_ok by assumption. exact Hi. }
  assert (Hrows : analysis_data (disk w') =
                  (analysis_data (disk w) ++
                     [mkRow (largest_rowid (disk w) + 1) t p c])%list).
  { unfold w'. now rewrite save_to_sqlite_ok by assumption. }
  assert (Hgot : got = Return (hd not_found_message
                    (map content (filter (matches t p) (analysis_data (disk w'))))))
    by now apply retrieve_from_sqlite_ok.
  assert (Hfil : filter (matches t p) (analysis_data (disk w')) =
                 (filter (matches t p) (analysis_data (disk w)) ++
                    [mkRow (largest_rowid (disk w) + 1) t p c])%list).
  { rewrite Hrows, filter_app_one. now rewrite matches_refl. }
  split.
  - intros Hnone. rewrite Hgot, Hfil, (filter_none _ _ Hnone). reflexivity.
  - destruct (filter (matches t p) (analysis_data (disk w'))) as [|r rest] eqn:Hf.
    + destruct (filter (matches t p) (analysis_data (disk w))); discriminate.
    + assert (Hr : In r (filter (matches t p) (analysis_data (disk w'))))
        by (rewrite Hf; now left).
      apply filter_In in Hr. destruct Hr as [Hin Hm].
      exists r. split; [exact Hin|]. split; [exact Hm|]. split.
      * exact (first_match_least _ _ _ _ (wf_sorted _ Hwf') Hf).
      * exact Hgot.
Qed.

Lemma C1_save_then_retrieve_witness :
  let w := init_db_times 1 fresh_world in
  let w' := snd (save_to_sqlite no_faults "RELIANCE" "100000-Moderate-Value" "text A" w) in
  fst (retrieve_from_sqlite no_faults "RELIANCE" "100000-Moderate-Value" w')
  = Return "text A".
Proof.
  intros w w'.
  refine (proj1 (C1_save_then_retrieve "RELIANCE" "100000-Moderate-Value" "text A" w
                   _ _ _) _).
  - reflexivity.
  - exact wf_after_init.
  - reflexivity.
  - intros r [].
Defined.

(** ** update *)

(** C3. On an initialised store, [update_sqlite topic parameters new_content]
    with a key that no row has returns the not-found message and leaves the
    file as it was; with a key that some row has it returns the updated
    message, and afterwards every row with the key carries [new_content]
    while every other row carries what it carried before. *)
Theorem C3_update_all_matching t p c w :
  initialized w ->
  let r := update_sqlite no_faults t p c w in
  let before := analysis_data (disk w) in
  let after := analysis_data (disk (snd r)) in
  ((forall x, In x before -> matches t p x = false) ->
   fst r = Return nothing_to_update_message /\ disk (snd r) = disk w)
  /\ ((exists x, In x before /\ matches t p x = true) ->
      fst r = Return updated_message
      /\ Forall2 (fun old new =>
                    identity new = identity old
                    /\ content new = if matches t p old then c else content old)
                 before after).
Proof.
  intros Hi r before after. unfold after, r. rewrite update_sqlite_ok by exact Hi.
  cbv zeta. fold before. split.
  - intros Hnone. rewrite (count_zero _ _ Hnone). cbn.
    rewrite (update_none c t p before Hnone). unfold before.
    now rewrite db_eta.
  - intros [x [Hin Hm]]. rewrite (count_nonzero _ _ x Hin Hm). cbn.
    split; [reflexivity|]. clear.
    induction before as [|a l IH]; cbn; constructor; [|exact IH].
    now destruct (matches t p a).
Qed.

Lemma C3_update_all_matching_witness :
  let w0 := init_db_times 1 fresh_world in
  let w1 := snd (save_to_sqlite no_faults "RELIANCE" "x" "text A" w0) in
  let w2 := snd (save_to_sqlite no_faults "RELIANCE" "x" "text A'" w1) in
  let r := update_sqlite no_faults "RELIANCE" "x" "text B" w2 in
  fst r = Return updated_message
  /\ map content (analysis_data (disk (snd r))) = ["text B"; "text B"].
Proof.
  intros w0 w1 w2 r.
  pose proof (proj2 (C3_update_all_matching "RELIANCE" "x" "text B" w2 eq_refl)) as H.
  split.
  - apply H. exists (mkRow 1 "RELIANCE" "x" "text A"). split; [now left|reflexivity].
  - reflexivity.
Defined.

(** ** delete *)

(** C4. On an initialised store, [delete_from_sqlite topic parameters] leaves
    exactly the rows whose key differs, returns the deleted message when at
    least one row had the key, and a second call with the same key returns
    the nothing-to-delete message. *)
Theorem C4_delete_all_matching t p w :
  initialized w ->
  let r := delete_from_sqlite no_faults t p w in
  let before := analysis_data (disk w) in
  let after := analysis_data (disk (snd r)) in
  (forall x, In x after <-> In x before /\ matches t p x = false)
  /\ ((exists x, In x before /\ matches t p x = true) ->
      fst r = Return deleted_message)
  /\ fst (delete_from_sqlite no_faults t p (snd r)) = Return nothing_to_delete_message.
Proof.
  intros Hi r before after.
  assert (Hafter : after = filter (fun x => negb (matches t p x)) before).
  { unfold after, r. rewrite delete_from_sqlite_ok by exact Hi. cbv zeta.
    now destruct (0 <? _). }
  assert (Hi' : initialized (snd r)).
  { unfold r. rewrite delete_from_sqlite_ok by exact Hi. cbv zeta.
    now destruct (0 <? _). }
  split; [|split].
  - intros x. rewrite Hafter, filter_In, negb_true_iff. reflexivity.
  - intros [x [Hin Hm]]. unfold r. rewrite delete_from_sqlite_ok by exact Hi.
    cbv zeta. fold before. now rewrite (count_nonzero _ _ x Hin Hm).
  - rewrite delete_from_sqlite_ok by exact Hi'. cbv zeta. fold after.
    rewrite count_zero; [reflexivity|].
    intros x Hx. rewrite Hafter in Hx. apply filter_In in Hx.
    now apply negb_true_iff.
Qed.

Lemma C4_delete_all_matching_witness :
  let w0 := init_db_times 1 fresh_world in
  let w1 := snd (save_to_sqlite no_faults "RELIANCE" "x" "text A" w0) in
  let r := delete_from_sqlite no_faults "RELIANCE" "x" w1 in
  fst r = Return deleted_message
  /\ fst (delete_from_sqlite no_faults "RELIANCE" "x" (snd r))
     = Return nothing_to_delete_message.
Proof.
  intros w0 w1 r.
  pose proof (C4_delete_all_matching "RELIANCE" "x" w1 eq_refl) as [_ [H1 H2]].
  split; [|exact H2].
  apply H1. exists (mkRow 1 "RELIANCE" "x" "text A"). split; [now left|reflexivity].
Defined.

(** ** retrieve when nothing is there *)

(** With the connection open: on an initialised store in which no row has
    the key (the empty store included), [retrieve_from_sqlite] returns the
    not-found message, which is not the empty string, and raises nothing;
    when the SELECT or the fetch fails in the engine, or the table is
    missing, it returns the error message, a different string, and raises
    nothing. *)
Lemma retrieve_absent_or_failed_when_connected :
  (forall t p w,
      initialized w ->
      (forall x, In x (analysis_data (disk w)) -> matches t p x = false) ->
      retrieve_from_sqlite no_faults t p w
      = (Return not_found_message, log_line not_found_message w))
  /\ not_found_message <> ""
  /\ (forall msg me fe t p w,
         fst (retrieve_from_sqlite (mkFaults None (Some msg) me fe) t p w)
         = Return retrieve_error_message)
  /\ (forall msg ee me t p w,
         fst (retrieve_from_sqlite (mkFaults None ee me (Some msg)) t p w)
         = Return retrieve_error_message)
  /\ (forall ee me fe t p w,
         has_table "analysis_data" (disk w) = false ->
         fst (retrieve_from_sqlite (mkFaults None ee me fe) t p w)
         = Return retrieve_error_message)
  /\ retrieve_error_message <> not_found_message.
Proof.
  split; [|split; [|split; [|split; [|split]]]].
  - intros t p w Hi Hnone. unfold no_faults. rewrite retrieve_from_sqlite_run.
    unfold select_content. rewrite Hi. cbn [negb].
    now rewrite (filter_none _ _ Hnone).
  - discriminate.
  - intros. now rewrite retrieve_from_sqlite_run.
  - intros msg ee me t p w. rewrite retrieve_from_sqlite_run.
    destruct ee; [reflexivity|]. now destruct (select_content t p (disk w)).
  - intros ee me fe t p w Hno. rewrite retrieve_from_sqlite_run.
    destruct ee; [reflexivity|]. unfold select_content. now rewrite Hno.
  - discriminate.
Qed.

Lemma retrieve_absent_or_failed_when_connected_example :
  fst (retrieve_from_sqlite no_faults "UNKNOWN" "x" (init_db_times 1 fresh_world))
  = Return not_found_message
  /\ fst (retrieve_from_sqlite (mkFaults None None None None) "UNKNOWN" "x" fresh_world)
     = Return retrieve_error_message.
Proof.
  split.
  - rewrite (proj1 retrieve_absent_or_failed_when_connected "UNKNOWN" "x"
               (init_db_times 1 fresh_world)).
    + reflexivity.
    + reflexivity.
    + intros x [].
  - apply (proj1 (proj2 (proj2 (proj2 (proj2 retrieve_absent_or_failed_when_connected))))).
    reflexivity.
Defined.

(** C5. The code at the input where the claim fails: when
    [sqlite3.connect] raises, [retrieve_from_sqlite] prints its error line
    and then, instead of returning the error message or the not-found
    message, ends in [UnboundLocalError], raised by [conn.close()] in the
    [finally] clause; this holds for every key and every store, the empty
    one included. *)
Theorem C5_retrieve_raises_when_connect_fails msg ee me fe t p w :
  let r := retrieve_from_sqlite (mkFaults (Some msg) ee me fe) t p w in
  fst r = Raise (UnboundLocalError "conn")
  /\ fst r <> Return retrieve_error_message
  /\ fst r <> Return not_found_message
  /\ stdout (snd r)
     = (stdout w ++ [("Error retrieving content from SQLite: " ++ msg)%string])%list
  /\ disk (snd r) = disk w.
Proof.
  cbv zeta. rewrite retrieve_from_sqlite_connect_failure.
  split; [reflexivity|]. split; [discriminate|]. split; [discriminate|].
  split; reflexivity.
Qed.

(** ** What update leaves alone *)

(** C9. Whatever the engine does, [update_sqlite] leaves the sequence of
    [(id, topic, parameters)] of the rows of the file as it was: no row is
    added or removed and only [content] can differ. *)
Theorem C9_update_frame env t p c w :
  map identity (analysis_data (disk (snd (update_sqlite env t p c w))))
  = map identity (analysis_data (disk w)).
Proof.
  destruct env as [[msg|] ee me fe]; [reflexivity|].
  rewrite update_sqlite_run. destruct ee as [msg|]; [reflexivity|].
  unfold update_rows.
  destruct (has_table "analysis_data" (disk w)); cbn [negb]; [|reflexivity].
  destruct me as [msg|]; [reflexivity|]. cbv zeta.
  destruct (0 <? _); cbn; apply update_keeps_identity.
Qed.

(** ** The not-found value is an ordinary string *)

(** C10. On an initialised store with no row under the key and room for a
    rowid, [retrieve_from_sqlite] returns the stored content after a save,
    whatever that content is, and returns the text
    ["No content found for the given topic and parameters."] when nothing is
    stored.  So when that text is what was saved, a row with the key exists
    and the call returns the same value as when none does.  The value
    returned when the engine fails on the SELECT,
    ["An error occurred while retrieving the content."], is an ordinary
    string in the same way: it is also what is returned, with the engine
    working, after that text has been saved. *)
Theorem C10_sentinel_collides t p w :
  initialized w -> largest_rowid (disk w) < max_rowid ->
  (forall r, In r (analysis_data (disk w)) -> matches t p r = false) ->
  let stored c := snd (save_to_sqlite no_faults t p c w) in
  let sentinel := "No content found for the given topic and parameters." in
  let failed := "An error occurred while retrieving the content." in
  (forall c, fst (retrieve_from_sqlite no_faults t p (stored c)) = Return c)
  /\ fst (retrieve_from_sqlite no_faults t p w) = Return sentinel
  /\ (exists r, In r (analysis_data (disk (stored sentinel)))
                /\ matches t p r = true /\ content r = sentinel)
  /\ fst (retrieve_from_sqlite no_faults t p (stored sentinel))
     = fst (retrieve_from_sqlite no_faults t p w)
  /\ (forall msg me fe,
         fst (retrieve_from_sqlite (mkFaults None (Some msg) me fe) t p w)
         = Return failed)
  /\ fst (retrieve_from_sqlite no_faults t p (stored failed)) = Return failed.
Proof.
  intros Hi Hroom Hnone stored sentinel failed.
  assert (Hs : forall c, fst (retrieve_from_sqlite no_faults t p (stored c)) = Return c).
  { intros c. unfold stored. rewrite save_to_sqlite_ok by assumption. cbn [snd].
    rewrite retrieve_from_sqlite_ok by exact Hi. cbn [log_line disk analysis_data].
    now rewrite filter_app_one, matches_refl, (filter_none _ _ Hnone). }
  assert (Ha : fst (retrieve_from_sqlite no_faults t p w) = Return sentinel).
  { rewrite retrieve_from_sqlite_ok by exact Hi.
    now rewrite (filter_none _ _ Hnone). }
  split; [exact Hs|]. split; [exact Ha|]. split; [|split; [|split]].
  - exists (mkRow (largest_rowid (disk w) + 1) t p sentinel). split; [|split].
    + unfold stored. rewrite save_to_sqlite_ok by assumption. cbn.
      apply in_or_app. right. now left.
    + apply matches_refl.
    + reflexivity.
  - now rewrite Hs, Ha.
  - intros msg me fe. now rewrite retrieve_from_sqlite_run.
  - apply Hs.
Qed.

Lemma C10_sentinel_collides_witness :
  let w := init_db_times 1 fresh_world in
  let sentinel := "No content found for the given topic and parameters." in
  fst (retrieve_from_sqlite no_faults "RELIANCE" "x"
         (snd (save_to_sqlite no_faults "RELIANCE" "x" sentinel w)))
  = Return sentinel
  /\ fst (retrieve_from_sqlite no_faults "RELIANCE" "x" w) = Return sentinel
  /\ fst (retrieve_from_sqlite no_faults "RELIANCE" "x"
            (snd (save_to_sqlite no_faults "RELIANCE" "x" "text A" w)))
     = Return "text A".
Proof.
  intros w sentinel.
  assert (Hnone : forall r, In r (analysis_data (disk w)) ->
                            matches "RELIANCE" "x" r = false)
    by (intros r []).
  pose proof (C10_sentinel_collides "RELIANCE" "x" w eq_refl eq_refl Hnone)
    as [Hs [Ha _]].
  split; [exact (Hs sentinel)|]. split; [exact Ha|exact (Hs "text A")].
Defined.

(** ** init_db, called again and again *)

Lemma one_table_named n (def : table_def) (l : list table_def) :
  NoDup (map tbl_name l) ->
  (forall t, In t l -> tbl_name t = n -> t = def) ->
  existsb (named n) l = true ->
  filter (named n) l = [def].
Proof.
  induction l as [|a l IH]; cbn; intros Hnd Hdef Hex; [discriminate|].
  inversion Hnd as [|x xs Hnotin Hnd']; subst.
  destruct (named n a) eqn:Ha.
  - unfold named in Ha. apply String.eqb_eq in Ha.
    rewrite (Hdef a (or_introl eq_refl) Ha). f_equal.
    apply filter_none. intros t Ht.
    destruct (named n t) eqn:Hn; [|reflexivity].
    unfold named in Hn. apply String.eqb_eq in Hn.
    exfalso. apply Hnotin. rewrite Ha, <- Hn. now apply in_map.
  - cbn in Hex. apply IH; [exact Hnd'| |exact Hex].
    intros t Ht. apply Hdef. now right.
Qed.

Lemma init_db_again w :
  initialized w -> disk (snd (init_db no_faults w)) = disk w.
Proof. intros Hi. rewrite init_db_ok. cbn. now rewrite Hi. Qed.

Lemma init_db_times_again n w :
  initialized w -> disk (init_db_times n w) = disk w.
Proof.
  revert w. induction n as [|n IH]; intros w Hi; [reflexivity|].
  cbn. rewrite IH by apply initialized_after_init. now apply init_db_again.
Qed.

Lemma init_db_keeps_rows env w :
  wf_db (disk w) ->
  analysis_data (disk (snd (init_db env w))) = analysis_data (disk w).
Proof.
  intros Hwf. destruct env as [[msg|] ee me fe]; [reflexivity|].
  rewrite init_db_run. destruct ee as [msg|]; [reflexivity|].
  unfold create_table_if_not_exists.
  destruct (has_table "analysis_data" (disk w)) eqn:Ht; [reflexivity|].
  cbn. symmetry. exact (wf_rows _ Hwf Ht).
Qed.

(** C7. Starting from a well-formed file (a new file included), after
    [init_db] has been called [n >= 1] times the catalogue has exactly one
    table named [analysis_data], the one with the four declared columns; the
    file is the same as after the first call; the rows are those that were
    there before; and a single call keeps the rows whatever the engine
    does. *)
Theorem C7_init_db_idempotent n w :
  (1 <= n)%nat -> wf_db (disk w) ->
  let d := disk (init_db_times n w) in
  filter (named "analysis_data") (sqlite_master d) = [analysis_data_def]
  /\ length (tbl_columns analysis_data_def) = 4%nat
  /\ d = disk (init_db_times 1 w)
  /\ analysis_data d = analysis_data (disk w)
  /\ (forall env, analysis_data (disk (snd (init_db env w))) = analysis_data (disk w)).
Proof.
  intros Hn Hwf d.
  destruct n as [|n]; [lia|].
  assert (Hd : d = disk (snd (init_db no_faults w))).
  { unfold d. cbn. apply init_db_times_again, initialized_after_init. }
  assert (Hwf1 : wf_db (disk (snd (init_db no_faults w)))) by now apply init_db_wf.
  split; [|split; [|split; [|split]]].
  - rewrite Hd. apply one_table_named.
    + exact (wf_names _ Hwf1).
    + exact (wf_schema _ Hwf1).
    + apply initialized_after_init.
  - reflexivity.
  - exact Hd.
  - rewrite Hd. now apply init_db_keeps_rows.
  - intros env. now apply init_db_keeps_rows.
Qed.

Lemma C7_init_db_idempotent_witness :
  let w := snd (save_to_sqlite no_faults "RELIANCE" "x" "text A"
                  (init_db_times 1 fresh_world)) in
  filter (named "analysis_data") (sqlite_master (disk (init_db_times 3 w)))
  = [analysis_data_def]
  /\ analysis_data (disk (init_db_times 3 w)) = [mkRow 1 "RELIANCE" "x" "text A"].
Proof.
  intros w.
  assert (Hn : (1 <= 3)%nat) by (repeat constructor).
  assert (Hwf : wf_db (disk w)) by apply save_to_sqlite_wf, wf_after_init.
  pose proof (C7_init_db_idempotent 3 w Hn Hwf) as [H1 [_ [_ [H2 _]]]].
  split; [exact H1|exact H2].
Defined.

(** ** Listing *)

Lemma largest_rowid_after_save t p c w :
  initialized w -> largest_rowid (disk w) < max_rowid ->
  largest_rowid (disk (snd (save_to_sqlite no_faults t p c w)))
  = largest_rowid (disk w) + 1.
Proof.
  intros Hi Hroom. rewrite save_to_sqlite_ok by assumption. cbn [snd log_line disk].
  apply Z.le_antisymm.
  - apply largest_rowid_le; cbn; [lia|].
    intros r Hr. apply in_app_iff in Hr. destruct Hr as [Hr|[<-|[]]]; cbn; [|lia].
    pose proof (largest_rowid_bound _ _ Hr). lia.
  - exact (largest_rowid_seq (mkDb _ _ _)).
Qed.

Lemma save_all_rows records : forall w,
  initialized w -> wf_db (disk w) ->
  largest_rowid (disk w) + Z.of_nat (length records) <= max_rowid ->
  initialized (save_all records w)
  /\ wf_db (disk (save_all records w))
  /\ exists news,
       analysis_data (disk (save_all records w))
       = (analysis_data (disk w) ++ news)%list
       /\ map payload news = records.
Proof.
  induction records as [|[[t p] c] rest IH]; intros w Hi Hwf Hroom.
  - split; [exact Hi|]. split; [exact Hwf|]. exists []. now rewrite app_nil_r.
  - cbn [save_all]. cbn [length] in Hroom.
    assert (Hlt : largest_rowid (disk w) < max_rowid) by lia.
    set (w1 := snd (save_to_sqlite no_faults t p c w)).
    assert (Hi1 : initialized w1).
    { unfold w1. rewrite save_to_sqlite_ok by assumption. exact Hi. }
    assert (Hwf1 : wf_db (disk w1)) by now apply save_to_sqlite_wf.
    assert (Hroom1 : largest_rowid (disk w1) + Z.of_nat (length rest) <= max_rowid).
    { unfold w1. rewrite largest_rowid_after_save by assumption. lia. }
    destruct (IH w1 Hi1 Hwf1 Hroom1) as [Hi2 [Hwf2 [news [Hrows Hpay]]]].
    split; [exact Hi2|]. split; [exact Hwf2|].
    exists (mkRow (largest_rowid (disk w) + 1) t p c :: news). split.
    + rewrite Hrows. unfold w1. rewrite save_to_sqlite_ok by assumption.
      cbn. now rewrite <- app_assoc.
    + cbn. now rewrite Hpay.
Qed.

(** C8 (amended). On an initialised well-formed store with room for the
    rowids, after [save_to_sqlite] has been called for n records
    [retrieve_all_data] returns the rows that were there followed by n new
    rows for those records, in the order of the calls, all ids distinct;
    [delete_from_sqlite topic parameters] makes the list shorter by the
    number of rows that had the key, which is one when exactly one row had
    it; on an empty store, on a missing table and when the SELECT or the
    fetch fails in the engine, the result is the empty list and nothing is
    raised. *)
Theorem C8_list_all :
  (forall records w,
      initialized w -> wf_db (disk w) ->
      largest_rowid (disk w) + Z.of_nat (length records) <= max_rowid ->
      exists news,
        fst (retrieve_all_data no_faults (save_all records w))
        = Return (analysis_data (disk w) ++ news)%list
        /\ map payload news = records
        /\ NoDup (map id (analysis_data (disk w) ++ news)))
  /\ (forall t p w,
         initialized w ->
         let matching := length (filter (matches t p) (analysis_data (disk w))) in
         let w' := snd (delete_from_sqlite no_faults t p w) in
         (count_listed w = count_listed w' + matching)%nat
         /\ (matching = 1%nat -> count_listed w = S (count_listed w')))
  /\ (forall w,
         initialized w -> analysis_data (disk w) = [] ->
         fst (retrieve_all_data no_faults w) = Return [])
  /\ (forall msg me fe w,
         fst (retrieve_all_data (mkFaults None (Some msg) me fe) w) = Return [])
  /\ (forall msg ee me w,
         fst (retrieve_all_data (mkFaults None ee me (Some msg)) w) = Return [])
  /\ (forall ee me fe w,
         has_table "analysis_data" (disk w) = false ->
         fst (retrieve_all_data (mkFaults None ee me fe) w) = Return []).
Proof.
  split; [|split; [|split; [|split; [|split]]]].
  - intros records w Hi Hwf Hroom.
    destruct (save_all_rows records w Hi Hwf Hroom) as [Hi' [Hwf' [news [Hrows Hpay]]]].
    exists news. split; [|split].
    + rewrite retrieve_all_data_ok by exact Hi'. cbn. now rewrite Hrows.
    + exact Hpay.
    + rewrite <- Hrows. apply sorted_NoDup. exact (wf_sorted _ Hwf').
  - intros t p w Hi matching w'.
    assert (Hi' : initialized w').
    { unfold w'. rewrite delete_from_sqlite_ok by exact Hi. cbv zeta.
      now destruct (0 <? _). }
    assert (Hrows : analysis_data (disk w')
                    = filter (fun r => negb (matches t p r)) (analysis_data (disk w))).
    { unfold w'. rewrite delete_from_sqlite_ok by exact Hi. cbv zeta.
      now destruct (0 <? _). }
    assert (Hcount : (count_listed w = count_listed w' + matching)%nat).
    { unfold count_listed. rewrite !retrieve_all_data_ok by assumption.
      cbn [fst]. rewrite Hrows. apply filter_split_length. }
    split; [exact Hcount|]. intros Hone. rewrite Hcount, Hone. lia.
  - intros w Hi Hempty. rewrite retrieve_all_data_ok by exact Hi. cbn.
    now rewrite Hempty.
  - intros. now rewrite retrieve_all_data_run.
  - intros msg ee me w. rewrite retrieve_all_data_run.
    destruct ee; [reflexivity|]. now destruct (select_all (disk w)).
  - intros ee me fe w Hno. rewrite retrieve_all_data_run.
    destruct ee; [reflexivity|]. unfold select_all. now rewrite Hno.
Qed.

Lemma C8_list_all_witness :
  let w := init_db_times 1 fresh_world in
  let w1 := save_all [("RELIANCE", "x", "text A"); ("TCS", "y", "text B")] w in
  (exists news,
      fst (retrieve_all_data no_faults w1) = Return news
      /\ map payload news = [("RELIANCE", "x", "text A"); ("TCS", "y", "text B")]
      /\ NoDup (map id news))
  /\ count_listed w1 = S (count_listed (snd (delete_from_sqlite no_faults "TCS" "y" w1)))
  /\ fst (retrieve_all_data no_faults w) = Return [].
Proof.
  intros w w1. split; [|split].
  - refine (proj1 C8_list_all
              [("RELIANCE", "x", "text A"); ("TCS", "y", "text B")] w _ _ _).
    + reflexivity.
    + exact wf_after_init.
    + discriminate.
  - refine (proj2 (proj1 (proj2 C8_list_all) "TCS" "y" w1 _) _); reflexivity.
  - refine (proj1 (proj2 (proj2 C8_list_all)) w _ _); reflexivity.
Defined.

(** C8, as the specification states it, fails where two rows share a key:
    after two saves under one key the list has two records, and one
    [delete_from_sqlite] of that key leaves none. *)
Lemma C8_delete_one_counterexample :
  let w := save_all [("RELIANCE", "x", "text A"); ("RELIANCE", "x", "text B")]
                    (init_db_times 1 fresh_world) in
  let w' := snd (delete_from_sqlite no_faults "RELIANCE" "x" w) in
  map id (analysis_data (disk w)) = [1; 2]
  /\ count_listed w = 2%nat
  /\ count_listed w' = 0%nat
  /\ count_listed w' <> (count_listed w - 1)%nat.
Proof.
  cbv zeta. split; [reflexivity|]. split; [reflexivity|].
  split; [reflexivity|]. discriminate.
Qed.

(** ** What reaches the caller *)

(** Once the connection is open, every function returns a value, whatever
    else the engine does, and as many connections are open afterwards as
    before. *)
Lemma connected_call_returns_and_releases ee me fe t p c w :
  let env := mkFaults None ee me fe in
  (fst (init_db env w) = Return tt /\ live (snd (init_db env w)) = live w)
  /\ ((exists b, fst (check_table_exists env w) = Return b)
      /\ live (snd (check_table_exists env w)) = live w)
  /\ (fst (save_to_sqlite env t p c w) = Return tt
      /\ live (snd (save_to_sqlite env t p c w)) = live w)
  /\ ((exists v, fst (retrieve_from_sqlite env t p w) = Return v)
      /\ live (snd (retrieve_from_sqlite env t p w)) = live w)
  /\ ((exists v, fst (delete_from_sqlite env t p w) = Return v)
      /\ live (snd (delete_from_sqlite env t p w)) = live w)
  /\ ((exists l, fst (retrieve_all_data env w) = Return l)
      /\ live (snd (retrieve_all_data env w)) = live w)
  /\ ((exists v, fst (update_sqlite env t p c w) = Return v)
      /\ live (snd (update_sqlite env t p c w)) = live w).
Proof.
  cbv zeta.
  rewrite init_db_run, check_table_exists_run, save_to_sqlite_run,
    retrieve_from_sqlite_run, delete_from_sqlite_run, retrieve_all_data_run,
    update_sqlite_run.
  cbv zeta. repeat split.
  all: destruct ee as [?|]; try (cbn; eauto; fail).
  - now destruct (create_table_if_not_exists (disk w)).
  - now destruct (create_table_if_not_exists (disk w)).
  - destruct fe; [cbn; eauto|].
    destruct (has_table "analysis_data" (disk w)); cbn; eauto.
  - destruct fe; [reflexivity|].
    now destruct (has_table "analysis_data" (disk w)).
  - destruct (insert_row t p c (disk w)) as [?|[? ?]]; [reflexivity|].
    now destruct me.
  - destruct (insert_row t p c (disk w)) as [?|[? ?]]; [reflexivity|].
    now destruct me.
  - destruct (select_content t p (disk w)) as [?|[|? ?]]; destruct fe; cbn; eauto.
  - destruct (select_content t p (disk w)) as [?|[|? ?]]; now destruct fe.
  - destruct (delete_rows t p (disk w)) as [?|[? n]]; [cbn; eauto|].
    destruct me; [cbn; eauto|]. destruct (0 <? n); cbn; eauto.
  - destruct (delete_rows t p (disk w)) as [?|[? n]]; [reflexivity|].
    destruct me; [reflexivity|]. now destruct (0 <? n).
  - destruct (select_all (disk w)); destruct fe; cbn; eauto.
  - destruct (select_all (disk w)); now destruct fe.
  - destruct (update_rows c t p (disk w)) as [?|[? n]]; [cbn; eauto|].
    destruct me; [cbn; eauto|]. destruct (0 <? n); cbn; eauto.
  - destruct (update_rows c t p (disk w)) as [?|[? n]]; [reflexivity|].
    destruct me; [reflexivity|]. now destruct (0 <? n).
Qed.

(** C2. The code at the input where the claim fails: when
    [sqlite3.connect] raises, each of the seven functions catches the
    [sqlite3.Error] and prints its line, and then [conn.close()] in the
    [finally] clause reads the unbound [conn]: the call ends in
    [UnboundLocalError], which reaches the caller.  No connection was
    opened, and the file is as it was. *)
Theorem C2_connect_failure_escapes msg ee me fe t p c w :
  let env := mkFaults (Some msg) ee me fe in
  let escaped {A} (r : outcome A * world) :=
    fst r = Raise (UnboundLocalError "conn")
    /\ disk (snd r) = disk w /\ live (snd r) = live w in
  escaped (init_db env w)
  /\ escaped (check_table_exists env w)
  /\ escaped (save_to_sqlite env t p c w)
  /\ escaped (retrieve_from_sqlite env t p w)
  /\ escaped (delete_from_sqlite env t p w)
  /\ escaped (retrieve_all_data env w)
  /\ escaped (update_sqlite env t p c w).
Proof. cbv zeta. repeat split. Qed.

(** ** init_db when the engine fails *)

(** C6 (amended). When the engine fails on the CREATE TABLE statement, the
    connection being open, [init_db] raises nothing: it prints
    ["Error initializing database: "] followed by the cause, closes the
    connection, leaves the file as it was and returns. *)
Theorem C6_init_db_swallows_engine_error msg me fe w :
  init_db (mkFaults None (Some msg) me fe) w
  = (Return tt, log_line ("Error initializing database: " ++ msg) w).
Proof. now rewrite init_db_run. Qed.

(** C6, as the specification states it, fails on a corrupted file: the file
    opens, the statement raises, and [init_db] returns without a fault. *)
Lemma C6_init_db_no_fault_counterexample :
  let r := init_db (mkFaults None (Some "file is not a database") None None)
                   fresh_world in
  fst r = Return tt
  /\ stdout (snd r) = ["Error initializing database: file is not a database"]
  /\ ~ (exists e, fst r = Raise e).
Proof.
  cbv zeta. split; [reflexivity|]. split; [reflexivity|].
  intros [e He]. discriminate He.
Qed.


(** * Further properties of [sqlite_backend.py] *)

(** ** The table check *)

(** A file that only this module has written is well formed. *)
Lemma written_by_module_wf w : written_by_module w -> wf_db (disk w).
Proof.
  induction 1 as [|env w _ IH|env w _ IH|env t p c w _ IH|env t p w _ IH
                  |env t p w _ IH|env w _ IH|env t p c w _ IH].
  - exact wf_empty_db.
  - now apply init_db_wf.
  - destruct env as [[msg|] ee me fe]; [exact IH|].
    rewrite check_table_exists_run. cbv zeta.
    destruct ee; [exact IH|]. destruct fe; [exact IH|].
    now destruct (has_table "analysis_data" (disk w)).
  - now apply save_to_sqlite_wf.
  - destruct env as [[msg|] ee me fe]; [exact IH|].
    rewrite retrieve_from_sqlite_run. cbv zeta. destruct ee; [exact IH|].
    destruct (select_content t p (disk w)) as [?|[|? ?]]; now destruct fe.
  - now apply delete_from_sqlite_wf.
  - destruct env as [[msg|] ee me fe]; [exact IH|].
    rewrite retrieve_all_data_run. cbv zeta. destruct ee; [exact IH|].
    destruct (select_all (disk w)); now destruct fe.
  - now apply update_sqlite_wf.
Qed.



(** ** What the functions leave alone *)

(** X2. The three functions that only read, [check_table_exists],
    [retrieve_from_sqlite] and [retrieve_all_data], leave the file as it
    was, whatever the engine does, a failure to connect included. *)
Theorem X2_readers_keep_file env t p w :
  disk (snd (check_table_exists env w)) = disk w
  /\ disk (snd (retrieve_from_sqlite env t p w)) = disk w
  /\ disk (snd (retrieve_all_data env w)) = disk w.
Proof.
  destruct env as [[msg|] ee me fe]; [repeat split|].
  rewrite check_table_exists_run, retrieve_from_sqlite_run, retrieve_all_data_run.
  cbv zeta. repeat split.
  - destruct ee; [reflexivity|]. destruct fe; [reflexivity|].
    now destruct (has_table "analysis_data" (disk w)).
  - destruct ee; [reflexivity|].
    destruct (select_content t p (disk w)) as [?|[|? ?]]; now destruct fe.
  - destruct ee; [reflexivity|].
    destruct (select_all (disk w)); now destruct fe.
Qed.

(** X3. A write that fails writes nothing: when the statement or the commit
    fails in the engine, [save_to_sqlite], [update_sqlite] and
    [delete_from_sqlite] leave the file exactly as it was (the open
    transaction is dropped when the connection is closed), and the last two
    return their error message. *)
Theorem X3_failed_write_keeps_file ce ee me fe t p c w :
  (ee <> None \/ me <> None) ->
  let env := mkFaults ce ee me fe in
  disk (snd (save_to_sqlite env t p c w)) = disk w
  /\ disk (snd (update_sqlite env t p c w)) = disk w
  /\ disk (snd (delete_from_sqlite env t p w)) = disk w
  /\ (ce = None ->
      fst (save_to_sqlite env t p c w) = Return tt
      /\ fst (update_sqlite env t p c w) = Return update_error_message
      /\ fst (delete_from_sqlite env t p w) = Return delete_error_message).
Proof.
  intros Hfail env. unfold env. destruct ce as [msg|].
  - split; [reflexivity|]. split; [reflexivity|]. split; [reflexivity|].
    discriminate.
  - rewrite save_to_sqlite_run, update_sqlite_run, delete_from_sqlite_run.
    cbv zeta. destruct ee as [msg|].
    + repeat split.
    + destruct me as [msg|]; [|destruct Hfail; congruence].
      destruct (insert_row t p c (disk w)) as [?|[? ?]];
        destruct (update_rows c t p (disk w)) as [?|[? ?]];
        destruct (delete_rows t p (disk w)) as [?|[? ?]]; repeat split.
Qed.

Lemma X3_failed_write_keeps_file_witness :
  let w := snd (save_to_sqlite no_faults "RELIANCE" "x" "text A"
                  (init_db_times 1 fresh_world)) in
  let env := mkFaults None None (Some "database or disk is full") None in
  disk (snd (delete_from_sqlite env "RELIANCE" "x" w)) = disk w
  /\ fst (delete_from_sqlite env "RELIANCE" "x" w) = Return delete_error_message.
Proof.
  intros w env.
  assert (H : @None string <> None \/ Some "database or disk is full" <> None)
    by (right; discriminate).
  pose proof (X3_failed_write_keeps_file None None (Some "database or disk is full")
                None "RELIANCE" "x" "text B" w H) as [_ [_ [H1 H2]]].
  split; [exact H1|]. exact (proj2 (proj2 (H2 eq_refl))).
Defined.

(** X4. Every call prints exactly one line, on every path: success, nothing
    found, an engine error, a failure to connect. *)
Theorem X4_one_line_per_call env t p c w :
  let one_line {A} (r : outcome A * world) :=
    exists line, stdout (snd r) = (stdout w ++ [line])%list in
  one_line (init_db env w)
  /\ one_line (check_table_exists env w)
  /\ one_line (save_to_sqlite env t p c w)
  /\ one_line (retrieve_from_sqlite env t p w)
  /\ one_line (delete_from_sqlite env t p w)
  /\ one_line (retrieve_all_data env w)
  /\ one_line (update_sqlite env t p c w).
Proof.
  cbv zeta. destruct env as [[msg|] ee me fe].
  - repeat split; eexists; reflexivity.
  - rewrite init_db_run, check_table_exists_run, save_to_sqlite_run,
      retrieve_from_sqlite_run, delete_from_sqlite_run, retrieve_all_data_run,
      update_sqlite_run.
    cbv zeta. repeat split.
    all: destruct ee as [?|]; try (eexists; reflexivity).
    + destruct (create_table_if_not_exists (disk w)); eexists; reflexivity.
    + destruct fe; [eexists; reflexivity|].
      destruct (has_table "analysis_data" (disk w)); eexists; reflexivity.
    + destruct (insert_row t p c (disk w)) as [?|[? ?]]; [eexists; reflexivity|].
      destruct me; eexists; reflexivity.
    + destruct (select_content t p (disk w)) as [?|[|? ?]]; destruct fe;
        eexists; reflexivity.
    + destruct (delete_rows t p (disk w)) as [?|[? n]]; [eexists; reflexivity|].
      destruct me; [eexists; reflexivity|]. destruct (0 <? n); eexists; reflexivity.
    + destruct (select_all (disk w)); destruct fe; eexists; reflexivity.
    + destruct (update_rows c t p (disk w)) as [?|[? n]]; [eexists; reflexivity|].
      destruct me; [eexists; reflexivity|]. destruct (0 <? n); eexists; reflexivity.
Qed.

(** ** Rowids *)

Lemma largest_rowid_is_sequence d :
  (forall r, In r (analysis_data d) -> id r <= sqlite_sequence d) ->
  largest_rowid d = sqlite_sequence d.
Proof.
  intros Hb. apply Z.le_antisymm; [|apply largest_rowid_seq].
  apply largest_rowid_le; [lia|exact Hb].
Qed.

(** The counter of [sqlite_sequence] stays at or above every rowid in the
    table, whatever a call does. *)
Lemma ids_stay_below_sequence env t p c w :
  let below w := forall r, In r (analysis_data (disk w)) ->
                           id r <= sqlite_sequence (disk w) in
  below w ->
  below (snd (init_db env w))
  /\ below (snd (save_to_sqlite env t p c w))
  /\ below (snd (update_sqlite env t p c w))
  /\ below (snd (delete_from_sqlite env t p w)).
Proof.
  cbv zeta. intros Hb. destruct env as [[msg|] ee me fe]; [now repeat split|].
  rewrite init_db_run, save_to_sqlite_run, update_sqlite_run, delete_from_sqlite_run.
  cbv zeta. destruct ee as [msg|]; [now repeat split|].
  split; [|split; [|split]].
  - unfold create_table_if_not_exists.
    destruct (has_table "analysis_data" (disk w)); cbn; [exact Hb|]. intros r [].
  - unfold insert_row.
    destruct (has_table "analysis_data" (disk w)); cbn [negb]; [|exact Hb].
    destruct (max_rowid <=? largest_rowid (disk w)); [exact Hb|].
    destruct me; [exact Hb|]. cbn. intros r Hr.
    apply in_app_iff in Hr. destruct Hr as [Hr|[<-|[]]]; cbn; [|lia].
    pose proof (largest_rowid_bound _ _ Hr). lia.
  - unfold update_rows.
    destruct (has_table "analysis_data" (disk w)); cbn [negb]; [|exact Hb].
    destruct me; [exact Hb|]. cbv zeta.
    assert (Hall : forall r,
               In r (map (fun r => if matches t p r then set_content c r else r)
                         (analysis_data (disk w))) ->
               id r <= sqlite_sequence (disk w)).
    { intros r Hr. apply in_map_iff in Hr. destruct Hr as [x [<- Hx]].
      specialize (Hb x Hx). now destruct (matches t p x). }
    destruct (0 <? _); exact Hall.
  - unfold delete_rows.
    destruct (has_table "analysis_data" (disk w)); cbn [negb]; [|exact Hb].
    destruct me; [exact Hb|]. cbv zeta.
    assert (Hall : forall r,
               In r (filter (fun r => negb (matches t p r)) (analysis_data (disk w))) ->
               id r <= sqlite_sequence (disk w)).
    { intros r Hr. apply filter_In in Hr. apply Hb. tauto. }
    destruct (0 <? _); exact Hall.
Qed.

(** X5. Rowids are not handed out again: on an initialised store whose
    sequence counter is at or above every rowid, a [save_to_sqlite] that
    follows a [delete_from_sqlite] appends one row, and its id is larger than
    the id of every row the table held before the delete, the deleted ones
    included. *)
Theorem X5_ids_never_reused t p t' p' c' w :
  initialized w ->
  (forall r, In r (analysis_data (disk w)) -> id r <= sqlite_sequence (disk w)) ->
  largest_rowid (disk w) < max_rowid ->
  let w1 := snd (delete_from_sqlite no_faults t p w) in
  let w2 := snd (save_to_sqlite no_faults t' p' c' w1) in
  exists r',
    analysis_data (disk w2) = (analysis_data (disk w1) ++ [r'])%list
    /\ payload r' = (t', p', c')
    /\ forall r, In r (analysis_data (disk w)) -> id r < id r'.
Proof.
  intros Hi Hb Hroom w1 w2.
  assert (Hd1 : disk w1 = mkDb (sqlite_master (disk w))
                            (filter (fun r => negb (matches t p r)) (analysis_data (disk w)))
                            (sqlite_sequence (disk w))).
  { unfold w1. rewrite delete_from_sqlite_ok by exact Hi. cbv zeta.
    now destruct (0 <? _). }
  assert (Hi1 : initialized w1) by (unfold initialized; now rewrite Hd1).
  assert (Hl1 : largest_rowid (disk w1) = sqlite_sequence (disk w)).
  { rewrite Hd1. rewrite largest_rowid_is_sequence; [reflexivity|].
    cbn. intros r Hr. apply filter_In in Hr. apply Hb. tauto. }
  assert (Hl : largest_rowid (disk w) = sqlite_sequence (disk w))
    by now apply largest_rowid_is_sequence.
  assert (Hroom1 : largest_rowid (disk w1) < max_rowid) by lia.
  exists (mkRow (largest_rowid (disk w1) + 1) t' p' c').
  split; [|split].
  - unfold w2. now rewrite save_to_sqlite_ok by assumption.
  - reflexivity.
  - intros r Hr. cbn. specialize (Hb r Hr). lia.
Qed.

Lemma X5_ids_never_reused_witness :
  let w := save_all [("RELIANCE", "x", "text A"); ("TCS", "y", "text B")]
                    (init_db_times 1 fresh_world) in
  let w1 := snd (delete_from_sqlite no_faults "TCS" "y" w) in
  let w2 := snd (save_to_sqlite no_faults "INFY" "z" "text C" w1) in
  exists r',
    analysis_data (disk w2) = (analysis_data (disk w1) ++ [r'])%list
    /\ payload r' = ("INFY", "z", "text C")
    /\ forall r, In r (analysis_data (disk w)) -> id r < id r'.
Proof.
  intros w w1 w2.
  refine (X5_ids_never_reused "TCS" "y" "INFY" "z" "text C" w _ _ _).
  - reflexivity.
  - intros r [<-|[<-|[]]]; discriminate.
  - reflexivity.
Defined.

(** ** How the functions compose *)

Lemma filter_matches_update c t p (l : list row) :
  filter (matches t p) (map (fun r => if matches t p r then set_content c r else r) l)
  = map (set_content c) (filter (matches t p) l).
Proof.
  induction l as [|a l IH]; cbn; [reflexivity|].
  destruct (matches t p a) eqn:Ha.
  - rewrite matches_set_content, Ha. cbn. now rewrite IH.
  - now rewrite Ha.
Qed.

Lemma filter_matches_delete t p (l : list row) :
  filter (matches t p) (filter (fun r => negb (matches t p r)) l) = [].
Proof.
  apply filter_none. intros x Hx. apply filter_In in Hx.
  now apply negb_true_iff.
Qed.

(** X6. On an initialised store with the engine working, after
    [update_sqlite topic parameters new_content] has found a row,
    [retrieve_from_sqlite topic parameters] returns [new_content]. *)
Theorem X6_update_then_retrieve t p c w :
  initialized w ->
  (exists x, In x (analysis_data (disk w)) /\ matches t p x = true) ->
  fst (retrieve_from_sqlite no_faults t p (snd (update_sqlite no_faults t p c w)))
  = Return c.
Proof.
  intros Hi [x [Hin Hm]].
  rewrite update_sqlite_ok by exact Hi. cbv zeta.
  rewrite (count_nonzero _ _ x Hin Hm). cbn [snd].
  rewrite retrieve_from_sqlite_ok by exact Hi. cbn [log_line disk analysis_data].
  rewrite filter_matches_update.
  pose proof (filter_some _ _ x Hin Hm) as Hne.
  now destruct (filter (matches t p) (analysis_data (disk w))).
Qed.

Lemma X6_update_then_retrieve_witness :
  let w := snd (save_to_sqlite no_faults "RELIANCE" "x" "text A"
                  (init_db_times 1 fresh_world)) in
  fst (retrieve_from_sqlite no_faults "RELIANCE" "x"
         (snd (update_sqlite no_faults "RELIANCE" "x" "text B" w)))
  = Return "text B".
Proof.
  intros w. apply (X6_update_then_retrieve "RELIANCE" "x" "text B" w).
  - reflexivity.
  - exists (mkRow 1 "RELIANCE" "x" "text A"). split; [now left|reflexivity].
Defined.

(** X7. On an initialised store with the engine working, after
    [delete_from_sqlite topic parameters], whether or not it found a row,
    [retrieve_from_sqlite topic parameters] returns the not-found message. *)
Theorem X7_delete_then_retrieve t p w :
  initialized w ->
  fst (retrieve_from_sqlite no_faults t p (snd (delete_from_sqlite no_faults t p w)))
  = Return not_found_message.
Proof.
  intros Hi. rewrite delete_from_sqlite_ok by exact Hi. cbv zeta.
  assert (H : forall line,
             fst (retrieve_from_sqlite no_faults t p
                    (log_line line
                       (mkWorld (mkDb (sqlite_master (disk w))
                                      (filter (fun r => negb (matches t p r))
                                              (analysis_data (disk w)))
                                      (sqlite_sequence (disk w)))
                                (live w) (stdout w))))
             = Return not_found_message).
  { intros line. rewrite retrieve_from_sqlite_ok by exact Hi.
    cbn [log_line disk analysis_data]. now rewrite filter_matches_delete. }
  destruct (0 <? _); apply H.
Qed.

Lemma X7_delete_then_retrieve_witness :
  let w := snd (save_to_sqlite no_faults "RELIANCE" "x" "text A"
                  (init_db_times 1 fresh_world)) in
  fst (retrieve_from_sqlite no_faults "RELIANCE" "x"
         (snd (delete_from_sqlite no_faults "RELIANCE" "x" w)))
  = Return not_found_message.
Proof. intros w. apply (X7_delete_then_retrieve "RELIANCE" "x" w). reflexivity. Defined.

(** What [retrieve_from_sqlite] returns depends on the file only through the
    first row of its SELECT. *)
Lemma retrieve_by_first_row env t p w1 w2 :
  match select_content t p (disk w1), select_content t p (disk w2) with
  | inr l1, inr l2 => hd_error l1 = hd_error l2
  | inl _, inl _ => True
  | _, _ => False
  end ->
  fst (retrieve_from_sqlite env t p w1) = fst (retrieve_from_sqlite env t p w2).
Proof.
  intros H. destruct env as [[msg|] ee me fe]; [reflexivity|].
  rewrite !retrieve_from_sqlite_run. cbv zeta.
  destruct ee; [reflexivity|].
  destruct (select_content t p (disk w1)) as [m1|l1],
           (select_content t p (disk w2)) as [m2|l2]; try contradiction.
  - reflexivity.
  - destruct fe; [reflexivity|].
    destruct l1, l2; cbn in H; try discriminate; [reflexivity|].
    now injection H as ->.
Qed.

Lemma other_key t p t' p' r :
  (t', p') <> (t, p) -> matches t p r = true -> matches t' p' r = false.
Proof.
  unfold matches. intros Hne Hm. apply andb_true_iff in Hm. destruct Hm as [Ht Hp].
  apply String.eqb_eq in Ht, Hp. apply andb_false_iff.
  destruct (String.eqb_spec (topic r) t'); [|now left].
  destruct (String.eqb_spec (parameters r) p'); [|now right].
  congruence.
Qed.

Lemma select_after_other_insert t p t' p' c d d' n :
  (t', p') <> (t, p) -> insert_row t' p' c d = inr (d', n) ->
  select_content t p d' = select_content t p d.
Proof.
  unfold insert_row, select_content, has_table. intros Hne H.
  destruct (existsb (named "analysis_data") (sqlite_master d)) eqn:Ht;
    cbn [negb] in *; [|discriminate].
  destruct (max_rowid <=? largest_rowid d); [discriminate|].
  injection H as <- _. cbn. rewrite Ht. cbn. rewrite filter_app_one.
  destruct (matches t p (mkRow (largest_rowid d + 1) t' p' c)) eqn:Hm.
  - apply (other_key _ _ _ _ _ Hne) in Hm. now rewrite matches_refl in Hm.
  - now rewrite app_nil_r.
Qed.

Lemma select_after_other_update t p t' p' c d d' n :
  (t', p') <> (t, p) -> update_rows c t' p' d = inr (d', n) ->
  select_content t p d' = select_content t p d.
Proof.
  unfold update_rows, select_content, has_table. intros Hne H.
  destruct (existsb (named "analysis_data") (sqlite_master d)) eqn:Ht;
    cbn [negb] in *; [|discriminate].
  injection H as <- _. cbn. rewrite Ht. cbn. f_equal.
  induction (analysis_data d) as [|a l IH]; cbn; [reflexivity|].
  destruct (matches t' p' a) eqn:Ha'.
  - rewrite matches_set_content. destruct (matches t p a) eqn:Ha.
    + apply (other_key _ _ _ _ _ Hne) in Ha. congruence.
    + exact IH.
  - destruct (matches t p a); cbn; now rewrite IH.
Qed.

Lemma select_after_other_delete t p t' p' d d' n :
  (t', p') <> (t, p) -> delete_rows t' p' d = inr (d', n) ->
  select_content t p d' = select_content t p d.
Proof.
  unfold delete_rows, select_content, has_table. intros Hne H.
  destruct (existsb (named "analysis_data") (sqlite_master d)) eqn:Ht;
    cbn [negb] in *; [|discriminate].
  injection H as <- _. cbn. rewrite Ht. cbn. f_equal.
  induction (analysis_data d) as [|a l IH]; cbn; [reflexivity|].
  destruct (matches t' p' a) eqn:Ha'; cbn.
  - destruct (matches t p a) eqn:Ha; [|exact IH].
    apply (other_key _ _ _ _ _ Hne) in Ha. congruence.
  - destruct (matches t p a); cbn; now rewrite IH.
Qed.

Lemma same_select_same_result env t p w1 w2 :
  select_content t p (disk w1) = select_content t p (disk w2) ->
  fst (retrieve_from_sqlite env t p w1) = fst (retrieve_from_sqlite env t p w2).
Proof.
  intros H. apply retrieve_by_first_row. rewrite H.
  now destruct (select_content t p (disk w2)).
Qed.

(** X8. A write under one key does not change what is retrieved under
    another: for [(topic', parameters')] different from [(topic, parameters)],
    [retrieve_from_sqlite topic parameters] returns the same after
    [save_to_sqlite], [update_sqlite] or [delete_from_sqlite] on
    [(topic', parameters')] as before, whatever the engine does in either
    call. *)
Theorem X8_other_keys_untouched env env' t p t' p' c w :
  (t', p') <> (t, p) ->
  fst (retrieve_from_sqlite env' t p (snd (save_to_sqlite env t' p' c w)))
  = fst (retrieve_from_sqlite env' t p w)
  /\ fst (retrieve_from_sqlite env' t p (snd (update_sqlite env t' p' c w)))
     = fst (retrieve_from_sqlite env' t p w)
  /\ fst (retrieve_from_sqlite env' t p (snd (delete_from_sqlite env t' p' w)))
     = fst (retrieve_from_sqlite env' t p w).
Proof.
  intros Hne. split; [|split]; apply same_select_same_result;
    (destruct env as [[msg|] ee me fe]; [reflexivity|]).
  - rewrite save_to_sqlite_run. cbv zeta. destruct ee; [reflexivity|].
    destruct (insert_row t' p' c (disk w)) as [?|[d' n]] eqn:Hi; [reflexivity|].
    destruct me; [reflexivity|]. exact (select_after_other_insert _ _ _ _ _ _ _ _ Hne Hi).
  - rewrite update_sqlite_run. cbv zeta. destruct ee; [reflexivity|].
    destruct (update_rows c t' p' (disk w)) as [?|[d' n]] eqn:Hu; [reflexivity|].
    destruct me; [reflexivity|].
    destruct (0 <? n); exact (select_after_other_update _ _ _ _ _ _ _ _ Hne Hu).
  - rewrite delete_from_sqlite_run. cbv zeta. destruct ee; [reflexivity|].
    destruct (delete_rows t' p' (disk w)) as [?|[d' n]] eqn:Hd; [reflexivity|].
    destruct me; [reflexivity|].
    destruct (0 <? n); exact (select_after_other_delete _ _ _ _ _ _ _ Hne Hd).
Qed.

Lemma X8_other_keys_untouched_witness :
  let w := snd (save_to_sqlite no_faults "RELIANCE" "x" "text A"
                  (init_db_times 1 fresh_world)) in
  fst (retrieve_from_sqlite no_faults "RELIANCE" "x"
         (snd (delete_from_sqlite no_faults "RELIANCE" "y" w)))
  = fst (retrieve_from_sqlite no_faults "RELIANCE" "x" w).
Proof.
  intros w.
  refine (proj2 (proj2 (X8_other_keys_untouched no_faults no_faults
                          "RELIANCE" "x" "RELIANCE" "y" "" w _))).
  discriminate.
Defined.

(** X9. Saving does not overwrite: when a row with the key is already in
    the table, [retrieve_from_sqlite topic parameters] returns after
    [save_to_sqlite topic parameters content] what it returned before,
    whatever the engine does in either call. *)
Theorem X9_save_does_not_overwrite env env' t p c w :
  (exists x, In x (analysis_data (disk w)) /\ matches t p x = true) ->
  fst (retrieve_from_sqlite env' t p (snd (save_to_sqlite env t p c w)))
  = fst (retrieve_from_sqlite env' t p w).
Proof.
  intros [x [Hin Hm]]. apply retrieve_by_first_row.
  assert (Hsame : match select_content t p (disk w), select_content t p (disk w) with
                  | inr l1, inr l2 => hd_error l1 = hd_error l2
                  | inl _, inl _ => True
                  | _, _ => False
                  end) by now destruct (select_content t p (disk w)).
  destruct env as [[msg|] ee me fe]; [exact Hsame|].
  rewrite save_to_sqlite_run. cbv zeta. destruct ee; [exact Hsame|].
  unfold insert_row.
  destruct (has_table "analysis_data" (disk w)) eqn:Ht; cbn [negb]; [|exact Hsame].
  destruct (max_rowid <=? largest_rowid (disk w)); [exact Hsame|].
  destruct me; [exact Hsame|].
  cbn [snd log_line disk]. unfold select_content, has_table in *. cbn.
  rewrite Ht. cbn. rewrite filter_app_one, map_app.
  pose proof (filter_some _ _ x Hin Hm) as Hne.
  now destruct (filter (matches t p) (analysis_data (disk w))).
Qed.

Lemma X9_save_does_not_overwrite_witness :
  let w := snd (save_to_sqlite no_faults "RELIANCE" "x" "text A"
                  (init_db_times 1 fresh_world)) in
  fst (retrieve_from_sqlite no_faults "RELIANCE" "x"
         (snd (save_to_sqlite no_faults "RELIANCE" "x" "text B" w)))
  = Return "text A".
Proof.
  intros w.
  rewrite (X9_save_does_not_overwrite no_faults no_faults "RELIANCE" "x" "text B" w).
  - reflexivity.
  - exists (mkRow 1 "RELIANCE" "x" "text A"). split; [now left|reflexivity].
Defined.

(** ** An invariant of the file *)

(** X10. Every function that writes keeps the file well formed, whatever
    the engine does: the rows stay in strictly increasing rowid order (so
    ids stay distinct), table names stay unique, [analysis_data] keeps its
    declared columns, and there are no rows without the table. *)
Theorem X10_file_stays_well_formed env t p c w :
  wf_db (disk w) ->
  wf_db (disk (snd (init_db env w)))
  /\ wf_db (disk (snd (save_to_sqlite env t p c w)))
  /\ wf_db (disk (snd (delete_from_sqlite env t p w)))
  /\ wf_db (disk (snd (update_sqlite env t p c w))).
Proof.
  intros Hwf. split; [|split; [|split]].
  - now apply init_db_wf.
  - now apply save_to_sqlite_wf.
  - now apply delete_from_sqlite_wf.
  - now apply update_sqlite_wf.
Qed.

Lemma X10_file_stays_well_formed_witness :
  wf_db (disk (snd (save_to_sqlite no_faults "RELIANCE" "x" "text A"
                      (init_db_times 1 fresh_world)))).
Proof.
  exact (proj1 (proj2 (X10_file_stays_well_formed no_faults "RELIANCE" "x"
                         "text A" (init_db_times 1 fresh_world) wf_after_init))).
Defined.

(** ** Before [init_db] *)

(** X11. On a file without the table, and with the connection open, nothing
    is stored and nothing is raised: [save_to_sqlite] returns as if it had
    saved, [update_sqlite] and [delete_from_sqlite] return their error
    message, and the file is as it was. *)
Theorem X11_writes_before_init ee me fe t p c w :
  has_table "analysis_data" (disk w) = false ->
  let env := mkFaults None ee me fe in
  (fst (save_to_sqlite env t p c w) = Return tt
   /\ disk (snd (save_to_sqlite env t p c w)) = disk w)
  /\ (fst (update_sqlite env t p c w) = Return update_error_message
      /\ disk (snd (update_sqlite env t p c w)) = disk w)
  /\ (fst (delete_from_sqlite env t p w) = Return delete_error_message
      /\ disk (snd (delete_from_sqlite env t p w)) = disk w).
Proof.
  intros Hno. cbv zeta.
  rewrite save_to_sqlite_run, update_sqlite_run, delete_from_sqlite_run.
  unfold insert_row, update_rows, delete_rows. rewrite Hno. cbn [negb]. cbv zeta.
  destruct ee; repeat split.
Qed.

Lemma X11_writes_before_init_witness :
  fst (save_to_sqlite no_faults "RELIANCE" "x" "text A" fresh_world) = Return tt
  /\ analysis_data (disk (snd (save_to_sqlite no_faults "RELIANCE" "x" "text A"
                                fresh_world))) = [].
Proof.
  pose proof (X11_writes_before_init None None None "RELIANCE" "x" "text A"
                fresh_world eq_refl) as [[H1 H2] _].
  split; [exact H1|]. cbv zeta in H2. unfold no_faults. now rewrite H2.
Defined.

(** ** Writing twice *)

(** X12. On an initialised store with the engine working, the second of
    two [update_sqlite] calls on one key decides: the file is as if only the
    second had been made; and a second [delete_from_sqlite] on one key
    leaves the file as the first left it. *)
Theorem X12_last_write_decides t p c1 c2 w :
  initialized w ->
  disk (snd (update_sqlite no_faults t p c2 (snd (update_sqlite no_faults t p c1 w))))
  = disk (snd (update_sqlite no_faults t p c2 w))
  /\ disk (snd (delete_from_sqlite no_faults t p
                  (snd (delete_from_sqlite no_faults t p w))))
     = disk (snd (delete_from_sqlite no_faults t p w)).
Proof.
  intros Hi.
  assert (Hu : forall c w0, initialized w0 ->
             disk (snd (update_sqlite no_faults t p c w0))
             = mkDb (sqlite_master (disk w0))
                    (map (fun r => if matches t p r then set_content c r else r)
                         (analysis_data (disk w0)))
                    (sqlite_sequence (disk w0))).
  { intros c w0 H0. rewrite update_sqlite_ok by exact H0. cbv zeta.
    now destruct (0 <? _). }
  assert (Hd : forall w0, initialized w0 ->
             disk (snd (delete_from_sqlite no_faults t p w0))
             = mkDb (sqlite_master (disk w0))
                    (filter (fun r => negb (matches t p r)) (analysis_data (disk w0)))
                    (sqlite_sequence (disk w0))).
  { intros w0 H0. rewrite delete_from_sqlite_ok by exact H0. cbv zeta.
    now destruct (0 <? _). }
  split.
  - assert (Hi1 : initialized (snd (update_sqlite no_faults t p c1 w)))
      by (unfold initialized; now rewrite (Hu c1 w Hi)).
    rewrite (Hu c2 _ Hi1), (Hu c1 w Hi), (Hu c2 w Hi). cbn. f_equal.
    rewrite map_map. apply map_ext. intros r.
    destruct (matches t p r) eqn:Hm; [|now rewrite Hm].
    now rewrite matches_set_content, Hm.
  - assert (Hi1 : initialized (snd (delete_from_sqlite no_faults t p w)))
      by (unfold initialized; now rewrite (Hd w Hi)).
    rewrite (Hd _ Hi1), (Hd w Hi). cbn. f_equal.
    induction (analysis_data (disk w)) as [|a l IH]; cbn; [reflexivity|].
    destruct (matches t p a) eqn:Hm; cbn; [exact IH|].
    rewrite Hm. cbn. now rewrite IH.
Qed.

Lemma X12_last_write_decides_witness :
  let w := snd (save_to_sqlite no_faults "RELIANCE" "x" "text A"
                  (init_db_times 1 fresh_world)) in
  analysis_data
    (disk (snd (update_sqlite no_faults "RELIANCE" "x" "text C"
                  (snd (update_sqlite no_faults "RELIANCE" "x" "text B" w)))))
  = [mkRow 1 "RELIANCE" "x" "text C"].
Proof.
  intros w.
  rewrite (proj1 (X12_last_write_decides "RELIANCE" "x" "text B" "text C" w eq_refl)).
  reflexivity.
Defined.


(** * Properties of the callers in [stock_app.py] *)

(** ** The key the buttons build *)

Lemma no_dash_digits d : no_dash (NilEmpty.string_of_uint d) = true.
Proof. induction d; cbn; auto. Qed.

Lemma no_dash_str_int n : 0 <= n -> no_dash (str_int n) = true.
Proof.
  unfold str_int. destruct n as [|q|q]; intros Hn; [reflexivity| |lia].
  cbn. destruct (Pos.to_uint q); try reflexivity; apply (no_dash_digits (_ _)).
Qed.

Lemma str_int_inj a b : str_int a = str_int b -> a = b.
Proof.
  unfold str_int. intros H. apply DecimalZ.to_int_inj.
  assert (Hok : forall n, Z.to_int n <> Decimal.Pos Decimal.Nil
                          /\ Z.to_int n <> Decimal.Neg Decimal.Nil).
  { intros [|q|q]; cbn; split; try discriminate;
      intros Heq; injection Heq; apply Unsigned.to_uint_nonnil. }
  pose proof (NilZero.isi _ (proj1 (Hok a)) (proj2 (Hok a))) as Ha.
  pose proof (NilZero.isi _ (proj1 (Hok b)) (proj2 (Hok b))) as Hb.
  rewrite H in Ha. congruence.
Qed.

(** Two strings that agree after a dash-free part and a dash agree on both
    parts. *)
Lemma split_at_dash a : forall b x y,
  no_dash a = true -> no_dash b = true ->
  a ++ "-" ++ x = b ++ "-" ++ y -> a = b /\ x = y.
Proof.
  induction a as [|ca a IH]; intros [|cb b] x y Ha Hb H; cbn in *.
  - injection H as ->. now split.
  - injection H as <- _. cbn in Hb. discriminate.
  - injection H as -> _. cbn in Ha. discriminate.
  - apply andb_true_iff in Ha, Hb. injection H as -> H.
    destruct (IH b x y (proj2 Ha) (proj2 Hb) H) as [-> ->]. now split.
Qed.

Lemma risk_text_inj r1 r2 : risk_text r1 = risk_text r2 -> r1 = r2.
Proof. destruct r1, r2; cbn; intros H; try reflexivity; discriminate. Qed.

(** X13. The key [parameters] tells apart what it is built from: for
    capitals that are not negative, as the number input gives them, two sets
    of inputs get the same key exactly when they have the same capital, the
    same risk tolerance and the same strategy.  Horizon, diversification
    and period play no part. *)
Theorem X13_parameters_key i1 i2 :
  0 <= initial_capital i1 -> 0 <= initial_capital i2 ->
  (parameters_of i1 = parameters_of i2
   <-> initial_capital i1 = initial_capital i2
       /\ risk_tolerance i1 = risk_tolerance i2
       /\ trading_strategy i1 = trading_strategy i2).
Proof.
  intros H1 H2. unfold parameters_of. split.
  - intros H. cbn in H. injection H as H.
    apply split_at_dash in H; try now apply no_dash_str_int.
    destruct H as [Hc H]. apply str_int_inj in Hc.
    apply split_at_dash in H;
      try (now destruct (risk_tolerance i1)); try (now destruct (risk_tolerance i2)).
    destruct H as [Hr Hs]. apply risk_text_inj in Hr. now repeat split.
  - intros [-> [-> ->]]. reflexivity.
Qed.

Lemma X13_parameters_key_witness :
  parameters_of (mkInputs "RELIANCE" 100000 Moderate "Value" Long_term 20 P1y)
  = parameters_of (mkInputs "RELIANCE" 100000 Moderate "Value" Short_term 50 P1mo).
Proof.
  apply (X13_parameters_key
           (mkInputs "RELIANCE" 100000 Moderate "Value" Long_term 20 P1y)
           (mkInputs "RELIANCE" 100000 Moderate "Value" Short_term 50 P1mo)).
  - discriminate.
  - discriminate.
  - repeat split.
Defined.

(** ** The Save button *)

(** X14. With content in the session and the connection open, the Save
    button always ends with "Analysis and advice saved successfully!" on the
    page and raises nothing, also when nothing was saved: if the statement
    or the commit failed in the engine, or the table is missing, the file is
    as it was. *)
Theorem X14_save_button_always_reports_success ee me fe i a :
  truthy (analysis_content a) = true ->
  let r := save_button (mkFaults None ee me fe) i a in
  fst r = Return tt
  /\ page (snd r) = (page a ++ [st_success saved_text])%list
  /\ (ee <> None \/ me <> None \/ has_table "analysis_data" (disk (store a)) = false ->
      disk (store (snd r)) = disk (store a)).
Proof.
  intros Hc. cbv zeta. unfold save_button. rewrite Hc. cbv zeta.
  rewrite save_to_sqlite_run. cbv zeta.
  destruct ee as [msg|]; [repeat split|].
  unfold insert_row.
  destruct (has_table "analysis_data" (disk (store a))); cbn [negb];
    [|repeat split].
  destruct (max_rowid <=? largest_rowid (disk (store a))); [repeat split|].
  destruct me as [msg|]; [repeat split|].
  split; [reflexivity|]. split; [reflexivity|].
  intros [H|[H|H]]; congruence.
Qed.

Lemma X14_save_button_always_reports_success_witness :
  let a := mkSession fresh_world "text A" [] in
  let i := mkInputs "RELIANCE" 100000 Moderate "Value" Long_term 20 P1y in
  page (snd (save_button no_faults i a)) = [st_success saved_text]
  /\ analysis_data (disk (store (snd (save_button no_faults i a)))) = [].
Proof.
  intros a i.
  pose proof (X14_save_button_always_reports_success None None None i a eq_refl)
    as [_ [H1 H2]].
  split; [exact H1|]. cbv zeta in H2. unfold no_faults. rewrite H2; [reflexivity|].
  right. right. reflexivity.
Defined.

(** ** The Retrieve button *)

Lemma truthy_false s : truthy s = false -> s = "".
Proof. unfold truthy. intros H. apply negb_false_iff in H. now apply String.eqb_eq. Qed.

Lemma truthy_true s : s <> "" -> truthy s = true.
Proof.
  unfold truthy. intros H. apply negb_true_iff. now apply String.eqb_neq.
Qed.

(** What [retrieve_from_sqlite] returns is the content of a row, or one of
    its two messages. *)
Lemma retrieved_value env t p w v :
  fst (retrieve_from_sqlite env t p w) = Return v ->
  (exists r, In r (analysis_data (disk w)) /\ content r = v)
  \/ v = not_found_message \/ v = retrieve_error_message.
Proof.
  destruct env as [[msg|] ee me fe]; [discriminate|].
  rewrite retrieve_from_sqlite_run. cbv zeta.
  destruct ee; [cbn; intros [= <-]; auto|].
  unfold select_content.
  destruct (has_table "analysis_data" (disk w)); cbn [negb];
    [|cbn; intros [= <-]; auto].
  destruct fe; [cbn; intros [= <-]; auto|].
  destruct (filter (matches t p) (analysis_data (disk w))) as [|r rest] eqn:Hf;
    cbn; intros [= <-]; [auto|].
  left. exists r. split; [|reflexivity].
  assert (Hr : In r (filter (matches t p) (analysis_data (disk w))))
    by (rewrite Hf; now left).
  apply filter_In in Hr. tauto.
Qed.

(** X15. "No previous analysis found for these parameters." is not what an
    absent record gives: on an initialised store with the engine working and
    no row under the key, the Retrieve button renders the not-found sentence
    of [retrieve_from_sqlite] as markdown, as if it were the analysis. *)
Theorem X15_retrieve_button_renders_not_found i a :
  truthy (stock_symbol i) = true -> 0 < initial_capital i ->
  initialized (store a) ->
  (forall r, In r (analysis_data (disk (store a))) ->
             matches (stock_symbol i) (parameters_of i) r = false) ->
  let r := retrieve_button no_faults i a in
  fst r = Return tt
  /\ page (snd r) = (page a ++ [st_markdown not_found_message])%list.
Proof.
  intros Hs Hc Hi Hnone. cbv zeta. unfold retrieve_button.
  rewrite Hs. apply Z.ltb_lt in Hc. rewrite Hc. cbn [andb]. cbv zeta.
  unfold no_faults. rewrite retrieve_from_sqlite_run. cbv zeta.
  unfold select_content. rewrite Hi. cbn [negb].
  rewrite (filter_none _ _ Hnone). cbn. split; reflexivity.
Qed.

Lemma X15_retrieve_button_renders_not_found_witness :
  let a := mkSession (init_db_times 1 fresh_world) "" [] in
  let i := mkInputs "RELIANCE" 100000 Moderate "Value" Long_term 20 P1y in
  page (snd (retrieve_button no_faults i a)) = [st_markdown not_found_message].
Proof.
  intros a i.
  refine (proj2 (X15_retrieve_button_renders_not_found i a _ _ _ _)).
  - reflexivity.
  - reflexivity.
  - reflexivity.
  - intros r [].
Defined.

(** X16. As long as no stored content is empty, the Retrieve button never
    puts "No previous analysis found for these parameters." on the page,
    whatever the inputs and whatever the engine does; and the Save button
    keeps stored contents non-empty, since it saves only when the session
    content is not empty. *)
Theorem X16_nothing_previous_is_never_shown env i a :
  (forall r, In r (analysis_data (disk (store a))) -> content r <> "") ->
  (forall e, In e (page (snd (retrieve_button env i a))) ->
             e = st_error nothing_previous_text -> In e (page a))
  /\ (forall r, In r (analysis_data (disk (store (snd (save_button env i a))))) ->
                content r <> "").
Proof.
  intros Hne. split.
  - intros e He Heq. unfold retrieve_button in He.
    destruct (truthy (stock_symbol i) && (0 <? initial_capital i)).
    + cbv zeta in He.
      destruct (retrieve_from_sqlite env (stock_symbol i) (parameters_of i) (store a))
        as [[v|ex] w'] eqn:Hr; [|exact He].
      assert (Htr : truthy v = true).
      { apply truthy_true.
        destruct (retrieved_value env _ _ _ v (f_equal fst Hr))
          as [[r [Hin <-]]|[->| ->]]; [now apply Hne|discriminate|discriminate]. }
      rewrite Htr in He. cbn in He. apply in_app_iff in He.
      destruct He as [He|[<-|[]]]; [exact He|discriminate].
    + cbn in He. apply in_app_iff in He.
      destruct He as [He|[<-|[]]]; [exact He|discriminate].
  - unfold save_button. destruct (truthy (analysis_content a)) eqn:Hc; [|exact Hne].
    cbv zeta. destruct env as [[msg|] ee me fe]; [exact Hne|].
    rewrite save_to_sqlite_run. cbv zeta. destruct ee; [exact Hne|].
    unfold insert_row.
    destruct (has_table "analysis_data" (disk (store a))); cbn [negb]; [|exact Hne].
    destruct (max_rowid <=? largest_rowid (disk (store a))); [exact Hne|].
    destruct me; [exact Hne|]. cbn. intros r Hr. apply in_app_iff in Hr.
    destruct Hr as [Hr|[<-|[]]]; [now apply Hne|]. cbn. intros Hempty.
    unfold truthy in Hc. rewrite Hempty in Hc. discriminate.
Qed.

Lemma X16_nothing_previous_is_never_shown_witness :
  let a := mkSession (init_db_times 1 fresh_world) "text A" [] in
  let i := mkInputs "RELIANCE" 100000 Moderate "Value" Long_term 20 P1y in
  Forall (fun r => content r <> "")
         (analysis_data (disk (store (snd (save_button no_faults i a))))).
Proof.
  intros a i. apply Forall_forall.
  refine (proj2 (X16_nothing_previous_is_never_shown no_faults i a _)).
  intros r [].
Defined.

(** ** Save, then Retrieve *)

Lemma save_button_ok i a :
  truthy (analysis_content a) = true ->
  initialized (store a) -> largest_rowid (disk (store a)) < max_rowid ->
  save_button no_faults i a =
  (Return tt,
   show (st_success saved_text)
     (with_store
        (log_line "Content saved to SQLite database."
           (mkWorld (mkDb (sqlite_master (disk (store a)))
                          (analysis_data (disk (store a)) ++
                             [mkRow (largest_rowid (disk (store a)) + 1)
                                    (stock_symbol i) (parameters_of i)
                                    (analysis_content a)])
                          (largest_rowid (disk (store a)) + 1))
                    (live (store a)) (stdout (store a))))
        a)).
Proof.
  intros Hc Hi Hroom. unfold save_button. rewrite Hc. cbv zeta.
  now rewrite save_to_sqlite_ok by assumption.
Qed.

Lemma retrieve_button_ok i a :
  truthy (stock_symbol i) = true -> 0 < initial_capital i ->
  initialized (store a) ->
  retrieve_button no_faults i a =
  match map content (filter (matches (stock_symbol i) (parameters_of i))
                            (analysis_data (disk (store a)))) with
  | c :: _ =>
      let a' := with_store (log_line "Content retrieved successfully." (store a)) a in
      if truthy c
      then (Return tt, show (st_markdown c) a')
      else (Return tt, show (st_error nothing_previous_text) a')
  | [] =>
      (Return tt,
       show (st_markdown not_found_message)
            (with_store (log_line not_found_message (store a)) a))
  end.
Proof.
  intros Hs Hcap Hi. unfold retrieve_button.
  rewrite Hs. apply Z.ltb_lt in Hcap. rewrite Hcap. cbn [andb]. cbv zeta.
  unfold no_faults. rewrite retrieve_from_sqlite_run. cbv zeta.
  unfold select_content. rewrite Hi. cbn [negb].
  now destruct (map content _).
Qed.

(** X17. With the engine working, on an initialised store with room for a
    rowid and no row under the key yet: Save with a symbol, a positive
    capital and content in the session, followed by Retrieve with the same
    inputs, puts the success notice and then the saved content, as
    markdown, on the page. *)
Theorem X17_save_then_retrieve_buttons i a :
  truthy (analysis_content a) = true ->
  truthy (stock_symbol i) = true -> 0 < initial_capital i ->
  initialized (store a) -> largest_rowid (disk (store a)) < max_rowid ->
  (forall r, In r (analysis_data (disk (store a))) ->
             matches (stock_symbol i) (parameters_of i) r = false) ->
  let r := retrieve_button no_faults i (snd (save_button no_faults i a)) in
  fst r = Return tt
  /\ page (snd r)
     = (page a ++ [st_success saved_text; st_markdown (analysis_content a)])%list.
Proof.
  intros Hc Hs Hcap Hi Hroom Hnone. cbv zeta.
  rewrite save_button_ok by assumption. cbn [snd].
  rewrite retrieve_button_ok by assumption.
  cbn [show with_store store log_line disk analysis_data].
  rewrite filter_app_one, matches_refl, (filter_none _ _ Hnone). cbn [app map content].
  cbv zeta. rewrite Hc. cbn. split; [reflexivity|]. now rewrite <- app_assoc.
Qed.

Lemma X17_save_then_retrieve_buttons_witness :
  let a := mkSession (init_db_times 1 fresh_world) "text A" [] in
  let i := mkInputs "RELIANCE" 100000 Moderate "Value" Long_term 20 P1y in
  page (snd (retrieve_button no_faults i (snd (save_button no_faults i a))))
  = [st_success saved_text; st_markdown "text A"].
Proof.
  intros a i.
  refine (proj2 (X17_save_then_retrieve_buttons i a _ _ _ _ _ _)).
  - reflexivity.
  - reflexivity.
  - reflexivity.
  - reflexivity.
  - reflexivity.
  - intros r [].
Defined.

(** X18. What Retrieve shows after a second Save is the first analysis:
    with the engine working, on an initialised store with room for two
    rowids and no row under the key, when content [c1] is saved, then
    content [c2] is saved with inputs that have the same symbol, capital,
    risk tolerance and strategy (horizon, diversification and period may
    differ), Retrieve with the second inputs renders [c1]. *)
Theorem X18_retrieve_shows_first_saved i1 i2 c1 c2 w :
  stock_symbol i2 = stock_symbol i1 ->
  initial_capital i2 = initial_capital i1 ->
  risk_tolerance i2 = risk_tolerance i1 ->
  trading_strategy i2 = trading_strategy i1 ->
  truthy c1 = true -> truthy c2 = true ->
  truthy (stock_symbol i1) = true -> 0 < initial_capital i1 ->
  initialized w -> largest_rowid (disk w) + 1 < max_rowid ->
  (forall r, In r (analysis_data (disk w)) ->
             matches (stock_symbol i1) (parameters_of i1) r = false) ->
  let a1 := snd (save_button no_faults i1 (mkSession w c1 [])) in
  let a2 := snd (save_button no_faults i2 (mkSession (store a1) c2 (page a1))) in
  let r := retrieve_button no_faults i2 a2 in
  fst r = Return tt
  /\ page (snd r)
     = [st_success saved_text; st_success saved_text; st_markdown c1].
Proof.
  intros Es Ec Er Et Hc1 Hc2 Hs Hcap Hi Hroom Hnone.
  assert (Ep : parameters_of i2 = parameters_of i1)
    by (unfold parameters_of; now rewrite Ec, Er, Et).
  assert (Hl1 : largest_rowid (disk (snd (save_to_sqlite no_faults (stock_symbol i1)
                                            (parameters_of i1) c1 w)))
                = largest_rowid (disk w) + 1)
    by (apply largest_rowid_after_save; [assumption|lia]).
  rewrite save_to_sqlite_ok in Hl1 by (try assumption; lia).
  cbn [snd log_line disk] in Hl1.
  cbv zeta.
  rewrite (save_button_ok i1 (mkSession w c1 [])) by (try assumption; cbn; lia).
  cbn [snd show with_store store page analysis_content app].
  rewrite save_button_ok; cbn [store analysis_content log_line disk];
    [|assumption|exact Hi|rewrite Hl1; lia].
  cbn [snd]. rewrite retrieve_button_ok;
    [|now rewrite Es|now rewrite Ec|exact Hi].
  cbn [show with_store store log_line disk analysis_data sqlite_master page
       analysis_content].
  rewrite Es, Ep.
  rewrite !filter_app_one, !matches_refl, (filter_none _ _ Hnone).
  cbn [app map content]. cbv zeta. rewrite Hc1. cbn. split; reflexivity.
Qed.

Lemma X18_retrieve_shows_first_saved_witness :
  let i1 := mkInputs "RELIANCE" 100000 Moderate "Value" Long_term 20 P1y in
  let i2 := mkInputs "RELIANCE" 100000 Moderate "Value" Short_term 50 P1mo in
  let a1 := snd (save_button no_faults i1
                   (mkSession (init_db_times 1 fresh_world) "long-term view" [])) in
  let a2 := snd (save_button no_faults i2
                   (mkSession (store a1) "short-term view" (page a1))) in
  page (snd (retrieve_button no_faults i2 a2))
  = [st_success saved_text; st_success saved_text; st_markdown "long-term view"].
Proof.
  intros i1 i2 a1 a2.
  refine (proj2 (X18_retrieve_shows_first_saved i1 i2 "long-term view"
                   "short-term view" (init_db_times 1 fresh_world)
                   _ _ _ _ _ _ _ _ _ _ _)); try reflexivity.
  intros r [].
Defined.

(** ** What Save accepts and Retrieve refuses *)

(** X19. The two buttons do not ask for the same inputs.  With an empty
    symbol or a capital that is not positive, Retrieve never reaches the
    store: it shows "Please enter the required inputs to retrieve previous
    analysis." and leaves everything else as it was, whatever the engine
    does.  Save asks only for content in the session: with the same inputs,
    on an initialised store with room for a rowid and the engine working, it
    appends a row under that symbol and key. *)
Theorem X19_save_accepts_what_retrieve_refuses env i a :
  truthy (stock_symbol i) = false \/ initial_capital i <= 0 ->
  retrieve_button env i a = (Return tt, show (st_error inputs_required_text) a)
  /\ (truthy (analysis_content a) = true ->
      initialized (store a) -> largest_rowid (disk (store a)) < max_rowid ->
      exists r,
        analysis_data (disk (store (snd (save_button no_faults i a))))
        = (analysis_data (disk (store a)) ++ [r])%list
        /\ payload r = (stock_symbol i, parameters_of i, analysis_content a)).
Proof.
  intros Hbad. split.
  - unfold retrieve_button.
    assert (Hg : truthy (stock_symbol i) && (0 <? initial_capital i) = false).
    { apply andb_false_iff. destruct Hbad as [H|H]; [now left|right].
      apply Z.ltb_ge. exact H. }
    now rewrite Hg.
  - intros Hc Hi Hroom. rewrite save_button_ok by assumption.
    eexists. split; reflexivity.
Qed.

Lemma X19_save_accepts_what_retrieve_refuses_witness :
  let i := mkInputs "" 0 Low "" Short_term 0 P1mo in
  let a := mkSession (init_db_times 1 fresh_world) "text A" [] in
  page (snd (retrieve_button no_faults i a)) = [st_error inputs_required_text]
  /\ exists r,
       analysis_data (disk (store (snd (save_button no_faults i a)))) = [r]
       /\ payload r = ("", parameters_of i, "text A").
Proof.
  intros i a.
  assert (Hbad : truthy (stock_symbol i) = false \/ initial_capital i <= 0)
    by (left; reflexivity).
  pose proof (X19_save_accepts_what_retrieve_refuses no_faults i a Hbad) as [H1 H2].
  split.
  - now rewrite H1.
  - apply H2; reflexivity.
Defined.

(** ** Start-up *)




(** * Properties of [fetch_realtime_news] *)

Lemma comprehension_length items l :
  comprehension items = Some l -> length l = length items.
Proof.
  revert l. induction items as [|a items IH]; cbn; intros l H.
  - now injection H as <-.
  - destruct (article_of a); [|discriminate].
    destruct (comprehension items) as [l'|]; [|discriminate].
    injection H as <-. cbn. now rewrite (IH l' eq_refl).
Qed.

Lemma first_five_length v items :
  first_five v = Some items -> (length items <= 5)%nat.
Proof.
  unfold first_five.
  destruct v as [| | | |s|l|]; intros H; try discriminate; injection H as <-.
  - rewrite length_map. exact (firstn_le_length 5 (list_ascii_of_string s)).
  - exact (firstn_le_length 5 l).
Qed.

Lemma article_of_fields item a :
  article_of item = Some a ->
  getitem item "title" = Some (title a)
  /\ getitem item "description" = Some (description a).
Proof.
  unfold article_of.
  destruct (getitem item "title") as [t|]; [|discriminate].
  destruct (getitem item "description") as [d|]; [|discriminate].
  intros [= <-]. now split.
Qed.

Lemma comprehension_all_good l :
  Forall (fun item => article_of item <> None) l ->
  exists arts,
    comprehension l = Some arts
    /\ Forall2 (fun item a => getitem item "title" = Some (title a)
                              /\ getitem item "description" = Some (description a))
               l arts.
Proof.
  induction 1 as [|item l Hok Hall [arts [Hc Hf]]]; cbn [comprehension].
  - exists []. split; [reflexivity|constructor].
  - destruct (article_of item) as [a|] eqn:Ha; [|congruence].
    rewrite Hc. exists (a :: arts). split; [reflexivity|].
    constructor; [now apply article_of_fields|exact Hf].
Qed.

Lemma comprehension_one_bad l :
  Exists (fun item => article_of item = None) l -> comprehension l = None.
Proof.
  induction 1 as [item l Hbad|item l Hex IH]; cbn [comprehension].
  - now rewrite Hbad.
  - rewrite IH. now destruct (article_of item).
Qed.

(** X21. [fetch_realtime_news] returns at most five articles, whatever the
    network answers; and it returns none when the request raises, when the
    status is not 200, or when the body cannot be decoded. *)
Theorem X21_news_at_most_five key get symbol :
  (length (fetch_realtime_news key get symbol) <= 5)%nat
  /\ (get (news_url key symbol) = None -> fetch_realtime_news key get symbol = [])
  /\ (forall r, get (news_url key symbol) = Some r ->
                status_code r <> 200 \/ json r = None ->
                fetch_realtime_news key get symbol = []).
Proof.
  unfold fetch_realtime_news. split; [|split].
  - destruct (get (news_url key symbol)) as [r|]; [|cbn; lia].
    destruct (status_code r =? 200); [|cbn; lia].
    destruct (json r) as [news_data|]; [|cbn; lia].
    destruct (getitem news_data "articles") as [articles|]; [|cbn; lia].
    destruct (first_five articles) as [items|] eqn:Hf; [|cbn; lia].
    destruct (comprehension items) as [l|] eqn:Hc; [|cbn; lia].
    rewrite (comprehension_length _ _ Hc). exact (first_five_length _ _ Hf).
  - now intros ->.
  - intros r -> [Hs|Hj].
    + apply Z.eqb_neq in Hs. now rewrite Hs.
    + rewrite Hj. now destruct (status_code r =? 200).
Qed.

Lemma X21_news_at_most_five_witness :
  fetch_realtime_news (Some "k")
    (fun _ => Some (mkResponse 401 (Some (PyDict [])) "Unauthorized")) "RELIANCE"
  = [].
Proof.
  refine (proj2 (proj2 (X21_news_at_most_five (Some "k")
            (fun _ => Some (mkResponse 401 (Some (PyDict [])) "Unauthorized"))
            "RELIANCE")) _ eq_refl _).
  left. discriminate.
Defined.

(** X22. On a 200 answer whose body is a dict with a list under
    ["articles"], only the first five items count, and they count together:
    if each of them is a dict with a ["title"] and a ["description"], the
    result has one entry per item, in order, with those two values; if one of
    them is not, the result is empty, however many good items there are.
    Items after the fifth are never looked at. *)
Theorem X22_news_first_five key get symbol r news_data items :
  get (news_url key symbol) = Some r -> status_code r = 200 ->
  json r = Some news_data ->
  getitem news_data "articles" = Some (PyList items) ->
  (Forall (fun item => article_of item <> None) (firstn 5 items) ->
   Forall2 (fun item a => getitem item "title" = Some (title a)
                          /\ getitem item "description" = Some (description a))
           (firstn 5 items) (fetch_realtime_news key get symbol))
  /\ (Exists (fun item => article_of item = None) (firstn 5 items) ->
      fetch_realtime_news key get symbol = []).
Proof.
  intros Hg Hs Hj Ha. unfold fetch_realtime_news.
  rewrite Hg, Hs, Hj, Ha. unfold first_five. cbn [Z.eqb Pos.eqb]. split.
  - intros Hall. destruct (comprehension_all_good _ Hall) as [arts [Hc Hf]].
    now rewrite Hc.
  - intros Hex. now rewrite (comprehension_one_bad _ Hex).
Qed.

Lemma X22_news_first_five_witness :
  let good n := PyDict [("title", PyStr n); ("description", PyNone)] in
  let body items := Some (mkResponse 200 (Some (PyDict [("articles", PyList items)])) "") in
  fetch_realtime_news None
    (fun _ => body [good "a"; good "b"; good "c"; good "d"; good "e"; PyInt 7])
    "RELIANCE"
  = [mkArticle (PyStr "a") PyNone; mkArticle (PyStr "b") PyNone;
     mkArticle (PyStr "c") PyNone; mkArticle (PyStr "d") PyNone;
     mkArticle (PyStr "e") PyNone]
  /\ fetch_realtime_news None
       (fun _ => body [good "a"; PyDict [("title", PyStr "b")]; good "c"])
       "RELIANCE"
     = [].
Proof.
  intros good body. split.
  - reflexivity.
  - refine (proj2 (X22_news_first_five None _ "RELIANCE"
                     (mkResponse 200 (Some (PyDict [("articles",
                        PyList [good "a"; PyDict [("title", PyStr "b")]; good "c"])])) "")
                     (PyDict [("articles",
                        PyList [good "a"; PyDict [("title", PyStr "b")]; good "c"])])
                     [good "a"; PyDict [("title", PyStr "b")]; good "c"]
                     eq_refl eq_refl eq_refl eq_refl) _).
    apply Exists_cons_tl. apply Exists_cons_hd. reflexivity.
Defined.


(** * What never reaches the caller *)

(** X23. Whatever the engine does, no [sqlite3.Error] leaves any of the
    seven functions, and no call leaves a connection open: as many
    connections are open after the call as before it. *)
Theorem X23_no_engine_error_escapes env t p c w :
  let contained {A} (r : outcome A * world) :=
    (forall msg, fst r <> Raise (sqlite3_Error msg)) /\ live (snd r) = live w in
  contained (init_db env w)
  /\ contained (check_table_exists env w)
  /\ contained (save_to_sqlite env t p c w)
  /\ contained (retrieve_from_sqlite env t p w)
  /\ contained (delete_from_sqlite env t p w)
  /\ contained (retrieve_all_data env w)
  /\ contained (update_sqlite env t p c w).
Proof.
  cbv zeta. destruct env as [[msg|] ee me fe].
  - repeat split; discriminate.
  - destruct (connected_call_returns_and_releases ee me fe t p c w)
      as [[H1 L1] [[[b H2] L2] [[H3 L3] [[[v4 H4] L4] [[[v5 H5] L5]
          [[[v6 H6] L6] [[v7 H7] L7]]]]]]].
    cbv zeta in *. rewrite H1, H2, H3, H4, H5, H6, H7.
    repeat split; try assumption; discriminate.
Qed.
